(** * lisa/platform_.py: the platform orchestration core

    A shallow embedding of [Platform] (prepare / deploy / delete /
    get_environment_information) and of [load_platform].

    Python objects are mutated in place and an exception leaves every
    mutation made before it visible to the caller.  The embedding therefore
    threads a store through every call and keeps the store when a call
    raises: a computation is a function [S -> result A * S]. *)

From Stdlib Require Import String List Bool Lia.
From stdpp Require Import base option list strings gmap.
Import ListNotations.

Local Open Scope string_scope.
Local Open Scope list_scope.

(** ** Exceptions

    [exn] stands for the instances of Python's [Exception] class, i.e. what
    an [except Exception] clause catches.  [LisaException] comes from
    lisa.util, [WaitMoreResourceError] is declared in platform_.py, the
    others are built in. *)
Inductive exn : Type :=
| LisaException (msg : string)
| AssertionError
| NotImplementedError
| WaitMoreResourceError
| OtherException (msg : string).

Inductive result (A : Type) : Type :=
| Ok (a : A)
| Raise (e : exn).
Arguments Ok {A} a.
Arguments Raise {A} e.

Definition is_ok {A} (r : result A) : bool :=
  match r with Ok _ => true | Raise _ => false end.

(** ** The state-and-exception monad *)
Definition ME (S A : Type) : Type := S -> result A * S.

Definition ret {S A} (a : A) : ME S A := fun s => (Ok a, s).

Definition raise {S A} (e : exn) : ME S A := fun s => (Raise e, s).

Definition bind {S A B} (m : ME S A) (k : A -> ME S B) : ME S B :=
  fun s =>
    match m s with
    | (Ok a, s') => k a s'
    | (Raise e, s') => (Raise e, s')
    end.

(** [try: m except Exception as e: h e] *)
Definition try_except {S A} (m : ME S A) (h : exn -> ME S A) : ME S A :=
  fun s =>
    match m s with
    | (Ok a, s') => (Ok a, s')
    | (Raise e, s') => h e s'
    end.

Global Instance ME_ret {S} : MRet (ME S) := fun A a => ret a.
Global Instance ME_bind {S} : MBind (ME S) := fun A B k m => bind m k.

(** ** Data model *)

(** PlatformStatus = Enum("TestRunStatus", ["INITIALIZED"]) *)
Inductive PlatformStatus : Type := INITIALIZED.

(** @dataclass PlatformMessage(MessageBase) *)
Record PlatformMessage : Type := {
  pm_type : string;
  pm_name : string;
  pm_status : PlatformStatus
}.

Definition PlatformMessage_default : PlatformMessage :=
  {| pm_type := "Platform"; pm_name := ""; pm_status := INITIALIZED |}.

(** Modelled from the spec: the lifecycle states of lisa.environment's
    EnvironmentStatus, whose declaration is not in platform_.py.  The source
    names [Prepared], [Deployed] and [Deleted]; the spec adds the initial
    state. *)
Inductive EnvironmentStatus : Type :=
| Initialized
| Prepared
| Deployed
| Deleted.

Global Instance EnvironmentStatus_eq_dec : EqDecision EnvironmentStatus.
Proof. solve_decision. Defined.

Module schema.
(** Modelled from the spec: the platform configuration record of lisa.schema,
    whose declaration is not in platform_.py.  It has the fields that
    platform_.py reads, and the type name that tags every record. *)
Record Platform : Type := {
  type : string;
  admin_username : string;
  admin_password : string;
  admin_private_key_file : string;
  keep_environment : string
}.
End schema.

(** What a Python reference to a [Platform] object lets its holder read:
    the class's type name and the instance's runbook.  [environment.platform]
    and [Features(node, self)] hold such a reference. *)
Record PlatformRef : Type := {
  ref_type_name : string;
  ref_runbook : schema.Platform
}.

(** Modelled from the spec: lisa.feature's Features(node, platform), whose
    declaration is not in platform_.py: the feature set of a node, built with
    the platform that deployed it from the feature classes that platform
    supports.  A feature class is known by the name that generic code uses
    for it. *)
Record Features : Type := {
  features_node : string;
  features_platform : PlatformRef;
  feature_types : list string
}.

(** Modelled from the spec: a node of lisa.node, whose declaration is not in
    platform_.py.  [is_remote] is [isinstance(node, RemoteNode)]; the three
    credential fields are [None] when the node's own runbook does not give
    them; [connected] says whether the node holds a live connection. *)
Record Node : Type := {
  node_name : string;
  is_remote : bool;
  username : option string;
  password : option string;
  private_key_file : option string;
  connected : bool;
  features : option Features
}.

(** Modelled from the spec: lisa.environment's Environment, whose declaration
    is not in platform_.py, with the attributes platform_.py uses: name,
    runbook (as it prints), nodes, status and the owning platform, unset
    until deploy. *)
Record Environment : Type := {
  name : string;
  runbook_repr : string;
  nodes : list Node;
  status : EnvironmentStatus;
  platform : option PlatformRef
}.

Definition with_status (s : EnvironmentStatus) (e : Environment) : Environment :=
  {| name := name e; runbook_repr := runbook_repr e; nodes := nodes e;
     status := s; platform := platform e |}.

Definition with_platform (p : option PlatformRef) (e : Environment) : Environment :=
  {| name := name e; runbook_repr := runbook_repr e; nodes := nodes e;
     status := status e; platform := p |}.

Definition with_nodes (ns : list Node) (e : Environment) : Environment :=
  {| name := name e; runbook_repr := runbook_repr e; nodes := ns;
     status := status e; platform := platform e |}.

Definition with_features (f : option Features) (n : Node) : Node :=
  {| node_name := node_name n; is_remote := is_remote n;
     username := username n; password := password n;
     private_key_file := private_key_file n;
     connected := connected n; features := f |}.

Definition with_connected (b : bool) (n : Node) : Node :=
  {| node_name := node_name n; is_remote := is_remote n;
     username := username n; password := password n;
     private_key_file := private_key_file n;
     connected := b; features := features n |}.

(** The credentials of a node, as one value. *)
Definition credentials (n : Node) : option string * option string * option string :=
  (username n, password n, private_key_file n).

(** ** Platform classes and instances

    The four overridable methods that take an environment act on the
    environment object they are given: they may change it in any way and may
    raise.  What they write to the logger they are handed is not modelled.
    [supported_features] is a class method without arguments: it names the
    feature classes of the platform, or raises. *)
Definition Method (A : Type) : Type := ME Environment A.

Record PlatformClass : Type := {
  type_name : string;
  supported_features : result (list string);
  _prepare_environment : Method bool;
  _deploy_environment : Method unit;
  _delete_environment : Method unit;
  _get_environment_information : Method (gmap string string)
}.

(** The bodies the base class gives to the overridable methods. *)
Definition Platform_base (tn : string) : PlatformClass :=
  {| type_name := tn;
     supported_features := Raise NotImplementedError;
     _prepare_environment := raise NotImplementedError;
     _deploy_environment := raise NotImplementedError;
     _delete_environment := raise NotImplementedError;
     _get_environment_information := ret ∅ |}.

Record Platform : Type := {
  cls : PlatformClass;
  runbook : schema.Platform
}.

Definition ref_of (self : Platform) : PlatformRef :=
  {| ref_type_name := type_name (cls self); ref_runbook := runbook self |}.

(** ** The store of the orchestration calls

    One environment object, and a trace that records, in order, what the
    calls did that a test double would observe: each log record, each
    invocation of a platform-specific routine (with the environment as it
    was handed over), each call of the platform's [supported_features], and
    each assignment to [environment.status]. *)
Inductive level : Type := DEBUG | INFO | ERROR.

Inductive routine : Type :=
| Prepare_routine
| Deploy_routine
| Delete_routine
| Information_routine
| Supported_features_routine.

Inductive event : Type :=
| Logged (l : level) (msg : string)
| Invoked (r : routine) (e : Environment)
| Asked_features
| Assigned (s : EnvironmentStatus).

Record World : Type := {
  env : Environment;
  trace : list event
}.

Definition emit (ev : event) : ME World unit :=
  fun w => (Ok tt, {| env := env w; trace := trace w ++ [ev] |}).

Definition log (l : level) (msg : string) : ME World unit := emit (Logged l msg).

Definition get_env : ME World Environment := fun w => (Ok (env w), w).

Definition update_env (f : Environment -> Environment) : ME World unit :=
  fun w => (Ok tt, {| env := f (env w); trace := trace w |}).

(** The store before any call: the environment and an empty trace. *)
Definition start (e : Environment) : World := {| env := e; trace := [] |}.

(** [environment.status = s] *)
Definition assign_status (s : EnvironmentStatus) : ME World unit :=
  emit (Assigned s);; update_env (with_status s).

(** [self._xxx(environment, log)]: run a platform-specific routine on the
    environment object. *)
Definition invoke {A} (r : routine) (m : Method A) : ME World A :=
  fun w =>
    let '(res, e') := m (env w) in
    (res, {| env := e'; trace := trace w ++ [Invoked r (env w)] |}).

(** Is this event an invocation of routine [r]? *)
Definition is_invocation (r : routine) (ev : event) : bool :=
  match ev, r with
  | Invoked Prepare_routine _, Prepare_routine => true
  | Invoked Deploy_routine _, Deploy_routine => true
  | Invoked Delete_routine _, Delete_routine => true
  | Invoked Information_routine _, Information_routine => true
  | Invoked Supported_features_routine _, Supported_features_routine => true
  | Asked_features, Supported_features_routine => true
  | _, _ => false
  end.

Definition invocations (r : routine) (t : list event) : nat :=
  length (List.filter (is_invocation r) t).

Definition is_error_record (ev : event) : bool :=
  match ev with Logged ERROR _ => true | _ => false end.

(** What the calls did to the platform and to the status, in order, without
    the log records and without the environments handed over. *)
Inductive step : Type :=
| Invokes (r : routine)
| Assigns (s : EnvironmentStatus).

Fixpoint steps (t : list event) : list step :=
  match t with
  | [] => []
  | Logged _ _ :: t' => steps t'
  | Invoked r _ :: t' => Invokes r :: steps t'
  | Asked_features :: t' => Invokes Supported_features_routine :: steps t'
  | Assigned s :: t' => Assigns s :: steps t'
  end.

(** The status values written, in order. *)
Fixpoint assigned (t : list event) : list EnvironmentStatus :=
  match t with
  | [] => []
  | Assigned s :: t' => s :: assigned t'
  | _ :: t' => assigned t'
  end.

(** ** Collaborators whose code is outside platform_.py *)

(** Modelled from the spec: RemoteNode.set_connection_info_by_runbook, which
    lives in lisa/node.py.  The spec describes it as a fill-if-absent merge
    of the platform's admin username, password and private-key-file into the
    node: a field the node gives explicitly is kept, a field it lacks
    receives the default. *)
Definition set_connection_info_by_runbook
    (default_username default_password default_private_key_file : string)
    (node : Node) : Node :=
  {| node_name := node_name node; is_remote := is_remote node;
     username := Some (default default_username (username node));
     password := Some (default default_password (password node));
     private_key_file :=
       Some (default default_private_key_file (private_key_file node));
     connected := connected node; features := features node |}.

(** Modelled from the spec: Environment.close, which lives in
    lisa/environment.py.  It releases the live connections owned by the
    environment object itself and does not touch platform resources. *)
Definition close (e : Environment) : Environment :=
  with_nodes (map (with_connected false) (nodes e)) e.

(** ** Platform.get_environment_information *)
Definition get_environment_information (self : Platform)
    : ME World (gmap string string) :=
  let information : gmap string string := ∅ in
  environment ← get_env;
  match platform environment with
  | None => raise AssertionError
  | Some owner =>
      if negb (String.eqb (ref_type_name owner) (type_name (cls self))) then
        mret information
      else
        let information := <["platform" := ref_type_name owner]> information in
        try_except
          (extra ← invoke Information_routine
                     (_get_environment_information (cls self));
           (* dict.update: the keys of [extra] win *)
           mret (extra ∪ information))
          (fun identifier =>
             log ERROR "failed to get environment information on platform";;
             mret information)
  end.

(** ** Platform.prepare_environment *)
Definition fill_connection_info (platform_runbook : schema.Platform)
    (node : Node) : Node :=
  if is_remote node then
    set_connection_info_by_runbook
      (schema.admin_username platform_runbook)
      (schema.admin_password platform_runbook)
      (schema.admin_private_key_file platform_runbook)
      node
  else node.

Definition prepare_environment (self : Platform) : ME World Environment :=
  let platform_runbook := runbook self in
  update_env (fun e =>
    with_nodes (map (fill_connection_info platform_runbook) (nodes e)) e);;
  is_success ← invoke Prepare_routine (_prepare_environment (cls self));
  (if is_success : bool then
     assign_status Prepared
   else
     environment ← get_env;
     raise (LisaException ("no capability found for environment: "
                           +:+ runbook_repr environment)));;
  get_env.

(** ** Platform.deploy_environment

    The elapsed time that the last log record reports is not modelled. *)
(** [self.supported_features()] *)
Definition ask_supported_features (self : Platform) : ME World (list string) :=
  fun w =>
    (supported_features (cls self),
     {| env := env w; trace := trace w ++ [Asked_features] |}).

(** Modelled from the spec: the constructor Features(node, platform) of
    lisa/feature.py.  It asks the platform which feature classes it supports
    (the method platform_.py declares for that purpose) and keeps the node,
    the platform and those classes; an exception of [supported_features]
    leaves the constructor. *)
Definition Features_init (node : Node) (self : Platform) : ME World Features :=
  types ← ask_supported_features self;
  mret {| features_node := node_name node;
          features_platform := ref_of self;
          feature_types := types |}.

(** The node with the feature set that a platform supporting [types] builds
    for it. *)
Definition build_features (self : Platform) (types : list string)
    (node : Node) : Node :=
  with_features
    (Some {| features_node := node_name node;
             features_platform := ref_of self;
             feature_types := types |})
    node.

(** [node.features = f], for the node at position [i] of the environment. *)
Definition set_node_features (i : nat) (f : Features) (e : Environment)
    : Environment :=
  with_nodes (alter (with_features (Some f)) i (nodes e)) e.

(** [for node in environment.nodes.list(): node.features = Features(node, self)],
    from position [i] on: the nodes are visited in order and each assignment
    is made before the next construction, so an exception leaves the earlier
    nodes with their feature sets. *)
Fixpoint build_features_from (self : Platform) (i : nat) (todo : list Node)
    : ME World unit :=
  match todo with
  | [] => mret tt
  | node :: rest =>
      f ← Features_init node self;
      update_env (set_node_features i f);;
      build_features_from self (S i) rest
  end.

(** How many feature sets the loop starts to construct over [ns]. *)
Definition constructions (self : Platform) (ns : list Node) : nat :=
  match supported_features (cls self) with
  | Ok _ => length ns
  | Raise _ => match ns with [] => 0 | _ :: _ => 1 end
  end.

Definition deploy_environment (self : Platform) : ME World unit :=
  environment ← get_env;
  log INFO ("deploying environment: " +:+ name environment);;
  update_env (with_platform (Some (ref_of self)));;
  invoke Deploy_routine (_deploy_environment (cls self));;
  assign_status Deployed;;
  deployed ← get_env;
  build_features_from self 0 (nodes deployed);;
  log INFO "deployed in <timer>".

(** The three orchestration calls that change an environment. *)
Inductive call : Type := Prepare | Deploy | Delete.

(** ** Platform.delete_environment

    [ENVIRONMENT_KEEP_ALWAYS] is lisa.util.constants.ENVIRONMENT_KEEP_ALWAYS,
    declared outside platform_.py: it is a parameter here. *)
Section WithConstants.
Variable ENVIRONMENT_KEEP_ALWAYS : string.

Definition delete_environment (self : Platform) : ME World unit :=
  environment ← get_env;
  update_env close;;
  (if String.eqb (schema.keep_environment (runbook self))
                 ENVIRONMENT_KEEP_ALWAYS then
     log INFO ("skipped to delete environment " +:+ name environment
               +:+ ", as runbook set to keep environment.")
   else
     log DEBUG "deleting";;
     invoke Delete_routine (_delete_environment (cls self));;
     log DEBUG "deleted");;
  assign_status Deleted.

(** A caller driving one environment through a sequence of orchestration
    calls; an exception from a call ends the sequence. *)
Definition perform (self : Platform) (c : call) : ME World unit :=
  match c with
  | Prepare => prepare_environment self;; mret tt
  | Deploy => deploy_environment self
  | Delete => delete_environment self
  end.

Fixpoint drive (self : Platform) (calls : list call) : ME World unit :=
  match calls with
  | [] => mret tt
  | c :: rest => perform self c;; drive self rest
  end.

(** The status values an observer of the environment sees: the one it
    starts with, then every value written to it. *)
Definition observed (self : Platform) (calls : list call)
    (e : Environment) : list EnvironmentStatus :=
  status e :: assigned (trace (drive self calls (start e)).2).
End WithConstants.

Definition lifecycle : list EnvironmentStatus :=
  [Initialized; Prepared; Deployed; Deleted].

(** The calls that are in order for an environment in state [s], and the
    states that follow [s] in the lifecycle. *)
Definition remaining (s : EnvironmentStatus) : list call :=
  match s with
  | Initialized => [Prepare; Deploy; Delete]
  | Prepared => [Deploy; Delete]
  | Deployed => [Delete]
  | Deleted => []
  end.

Definition after (s : EnvironmentStatus) : list EnvironmentStatus :=
  match s with
  | Initialized => [Prepared; Deployed; Deleted]
  | Prepared => [Deployed; Deleted]
  | Deployed => [Deleted]
  | Deleted => []
  end.

(** The status each call assigns when it returns. *)
Definition written (c : call) : EnvironmentStatus :=
  match c with
  | Prepare => Prepared
  | Deploy => Deployed
  | Delete => Deleted
  end.

(** ** Loading the platform

    The loader's store: the objects registered with the plugin manager, and
    the records of the "init" logger. *)
Record Loader : Type := {
  plugins : list Platform;
  init_log : list (level * string)
}.

(** [log.debug(msg)] on the "init" logger. *)
Definition init_debug (msg : string) : ME Loader unit :=
  fun st =>
    (Ok tt, {| plugins := plugins st; init_log := init_log st ++ [(DEBUG, msg)] |}).

(** Platform.__init__: keep the runbook, register with the plugin manager. *)
Definition Platform_init (c : PlatformClass) (rb : schema.Platform)
    : ME Loader Platform :=
  let self := {| cls := c; runbook := rb |} in
  fun st =>
    (Ok self, {| plugins := plugins st ++ [self]; init_log := init_log st |}).

(** Modelled from the spec: subclasses.Factory.create_by_runbook, which lives
    in lisa/util/subclasses.py.  The factory resolves the declared type name
    against the closed set of registered implementations and constructs the
    instance with the parsed configuration; an unknown type name is a fatal
    error. *)
Definition create_by_runbook (registered : list PlatformClass)
    (rb : schema.Platform) : ME Loader Platform :=
  match List.find (fun c => String.eqb (type_name c) (schema.type rb)) registered with
  | Some c => Platform_init c rb
  | None => raise (LisaException ("cannot find subclass '" +:+ schema.type rb
                                  +:+ "' of Platform"))
  end.

Definition load_platform (registered : list PlatformClass)
    (platforms_runbook : list schema.Platform) : ME Loader Platform :=
  let platform_count := length platforms_runbook in
  if negb (Nat.eqb platform_count 1) then
    raise (LisaException "There must be 1 and only 1 platform")
  else
    match platforms_runbook with
    | [] => raise (OtherException "IndexError")
    | first :: _ =>
        default_platform ← create_by_runbook registered first;
        init_debug ("activated platform '"
                    +:+ type_name (cls default_platform) +:+ "'");;
        mret default_platform
    end.

(** ** Sample platforms, runbooks and environments *)
Module Samples.
Definition KEEP_ALWAYS : string := "always".

(** A platform that can host anything and never fails. *)
Definition simulated : PlatformClass :=
  {| type_name := "simulated";
     supported_features := Ok ["StartStop"; "SerialConsole"];
     _prepare_environment := ret true;
     _deploy_environment := ret tt;
     _delete_environment := ret tt;
     _get_environment_information := ret {[ "location" := "lab" ]} |}.

(** A platform with no capacity, whose every routine fails. *)
Definition broken : PlatformClass :=
  {| type_name := "broken";
     supported_features := Ok [];
     _prepare_environment := ret false;
     _deploy_environment := raise (OtherException "quota exceeded");
     _delete_environment := raise (OtherException "resource group locked");
     _get_environment_information := raise (OtherException "no metadata") |}.

(** A platform whose teardown fails on an environment that is already
    marked Deleted: the resources are gone. *)
Definition strict : PlatformClass :=
  {| type_name := "strict";
     supported_features := Ok [];
     _prepare_environment := ret true;
     _deploy_environment := ret tt;
     _delete_environment := fun e =>
       if decide (status e = Deleted)
       then (Raise (OtherException "resource group not found"), e)
       else (Ok tt, e);
     _get_environment_information := ret ∅ |}.

Definition rb (t keep : string) : schema.Platform :=
  {| schema.type := t;
     schema.admin_username := "lisa";
     schema.admin_password := "secret";
     schema.admin_private_key_file := "/keys/id_rsa";
     schema.keep_environment := keep |}.

Definition sim : Platform := {| cls := simulated; runbook := rb "simulated" "no" |}.
Definition sim_keep : Platform :=
  {| cls := simulated; runbook := rb "simulated" "always" |}.
Definition bad : Platform := {| cls := broken; runbook := rb "broken" "no" |}.
Definition once : Platform := {| cls := strict; runbook := rb "strict" "no" |}.

Definition bare : Node :=
  {| node_name := "n0"; is_remote := true;
     username := None; password := None; private_key_file := None;
     connected := true; features := None |}.

Definition explicit : Node :=
  {| node_name := "n1"; is_remote := true;
     username := Some "root"; password := Some "hunter2";
     private_key_file := Some "/home/root/key";
     connected := true; features := None |}.

Definition local : Node :=
  {| node_name := "n2"; is_remote := false;
     username := None; password := None; private_key_file := None;
     connected := false; features := None |}.

Definition fresh : Environment :=
  {| name := "e0"; runbook_repr := "Environment(e0)";
     nodes := [bare; explicit; local];
     status := Initialized; platform := None |}.

(** [fresh] once a platform has prepared and deployed it. *)
Definition deployed_by (p : Platform) : Environment :=
  with_status Deployed (with_platform (Some (ref_of p)) fresh).

(** [fresh] once prepared. *)
Definition prepared : Environment := with_status Prepared fresh.

(** [fresh] once deleted. *)
Definition deleted : Environment := with_status Deleted fresh.

Definition nothing : Loader := {| plugins := []; init_log := [] |}.
End Samples.


(** ** Contracts on the platform-specific routines

    The spec makes the orchestration calls the only writer of
    [environment.status]: a platform-specific routine never sets it. *)
Definition keeps_status {A} (m : Method A) : Prop :=
  ∀ e, status (m e).2 = status e.

Definition single_writer (c : PlatformClass) : Prop :=
  keeps_status (_prepare_environment c)
  ∧ keeps_status (_deploy_environment c)
  ∧ keeps_status (_delete_environment c).

(** A routine that leaves the credentials of every node alone. *)
Definition keeps_credentials {A} (m : Method A) : Prop :=
  ∀ e, map credentials (nodes (m e).2) = map credentials (nodes e).

(** A node whose own runbook gives no credentials, and one whose runbook
    gives them all. *)
Definition lacks_credentials (n : Node) : Prop :=
  credentials n = (None, None, None).

Definition explicit_credentials (n : Node) : Prop :=
  is_Some (username n) ∧ is_Some (password n) ∧ is_Some (private_key_file n).

(** The defaults a platform runbook offers. *)
Definition default_credentials (rb : schema.Platform)
    : option string * option string * option string :=
  (Some (schema.admin_username rb), Some (schema.admin_password rb),
   Some (schema.admin_private_key_file rb)).

(** A routine that raises no [LisaException] of its own. *)
Definition no_LisaException {A} (m : Method A) : Prop :=
  ∀ e msg, (m e).1 ≠ Raise (LisaException msg).

(** The error [prepare_environment] raises when negotiation fails. *)
Definition capability_error (e : Environment) : exn :=
  LisaException ("no capability found for environment: " +:+ runbook_repr e).

(** The environment as [prepare_environment] hands it to negotiation. *)
Definition with_connection_info (self : Platform) (e : Environment) : Environment :=
  with_nodes (map (fill_connection_info (runbook self)) (nodes e)) e.

(** The environment as [deploy_environment] hands it to the deploy routine. *)
Definition bound_to (self : Platform) (e : Environment) : Environment :=
  with_platform (Some (ref_of self)) e.

(** A routine that leaves [environment.platform] alone. *)
Definition keeps_platform {A} (m : Method A) : Prop :=
  ∀ e, platform (m e).2 = platform e.

Global Instance routine_eq_dec : EqDecision routine.
Proof. solve_decision. Defined.

(** A routine that leaves the environment's nodes alone. *)
Definition keeps_nodes {A} (m : Method A) : Prop :=
  ∀ e, nodes (m e).2 = nodes e.

(** The platform-specific routine behind each orchestration call. *)
Definition routine_of (c : call) : routine :=
  match c with
  | Prepare => Prepare_routine
  | Deploy => Deploy_routine
  | Delete => Delete_routine
  end.

(** Has the call assigned its status?  prepare_environment and
    delete_environment assign it last, so exactly when they return;
    deploy_environment assigns it as soon as its deploy routine has returned,
    before it builds the feature sets. *)
Definition advances (K : string) (self : Platform) (c : call) (w : World)
    (outcome : result unit) : bool :=
  match c with
  | Deploy => is_ok (_deploy_environment (cls self) (bound_to self (env w))).1
  | _ => is_ok outcome
  end.

(** How often the call reaches the platform's [supported_features]: only
    deploy_environment does, once for each feature set it starts to
    construct after its deploy routine returned. *)
Definition feature_queries (self : Platform) (c : call) (w : World) : nat :=
  match c with
  | Deploy =>
      let deployed := _deploy_environment (cls self) (bound_to self (env w)) in
      if is_ok deployed.1 then constructions self (nodes deployed.2) else 0
  | _ => 0
  end.

(** Does the call get as far as its platform-specific routine?  Only
    delete_environment can skip it, when the runbook keeps the environment. *)
Definition reaches_routine (K : string) (self : Platform) (c : call) : bool :=
  match c with
  | Delete => negb (String.eqb (schema.keep_environment (runbook self)) K)
  | _ => true
  end.

(** ** load_platform_from_builder

    The runbook builder's [partial_resolve], [schema.load_by_type_many] (at
    schema.Platform) and [constants.PLATFORM] are declared outside
    platform_.py: they are parameters here.  Both functions may raise and may
    act on the loader's store. *)
Section Builder.
Variable RunbookData : Type.
Variable PLATFORM : string.
Variable partial_resolve : string → ME Loader RunbookData.
Variable load_by_type_many : RunbookData → ME Loader (list schema.Platform).

Definition load_platform_from_builder (registered : list PlatformClass)
    : ME Loader Platform :=
  platform_runbook_data ← partial_resolve PLATFORM;
  platform_runbook ← load_by_type_many platform_runbook_data;
  platform ← load_platform registered platform_runbook;
  mret platform.
End Builder.

(** More samples: a builder whose runbook holds a platform section only,
    already parsed; and a platform that is out of resources for now. *)
Module MoreSamples.
Definition resolve (section : list schema.Platform) (key : string)
    : ME Loader (list schema.Platform) :=
  if String.eqb key "platform" then ret section
  else raise (OtherException "KeyError").

Definition parse (data : list schema.Platform)
    : ME Loader (list schema.Platform) := ret data.

Definition crowded : PlatformClass :=
  {| type_name := "crowded";
     supported_features := Ok [];
     _prepare_environment := raise WaitMoreResourceError;
     _deploy_environment := ret tt;
     _delete_environment := ret tt;
     _get_environment_information := ret ∅ |}.

Definition busy : Platform :=
  {| cls := crowded; runbook := Samples.rb "crowded" "no" |}.

(** A platform that negotiates, deploys and tears down, but keeps the base
    class's [supported_features]. *)
Definition featureless : PlatformClass :=
  {| type_name := "featureless";
     supported_features := Raise NotImplementedError;
     _prepare_environment := ret true;
     _deploy_environment := ret tt;
     _delete_environment := ret tt;
     _get_environment_information := ret ∅ |}.

Definition plain : Platform :=
  {| cls := featureless; runbook := Samples.rb "featureless" "no" |}.
End MoreSamples.

(** ** Unfolding the calls *)

Ltac me_unfold :=
  unfold assign_status, log, emit, update_env, get_env, invoke, try_except,
    mbind, mret, ME_bind, ME_ret, bind, ret, raise in *.

Lemma prepare_environment_eq (self : Platform) (w : World) :
  prepare_environment self w =
  let e1 := with_connection_info self (env w) in
  let t1 := trace w ++ [Invoked Prepare_routine e1] in
  match _prepare_environment (cls self) e1 with
  | (Ok true, e2) =>
      (Ok (with_status Prepared e2),
       {| env := with_status Prepared e2; trace := t1 ++ [Assigned Prepared] |})
  | (Ok false, e2) => (Raise (capability_error e2), {| env := e2; trace := t1 |})
  | (Raise x, e2) => (Raise x, {| env := e2; trace := t1 |})
  end.
Proof.
  unfold prepare_environment, with_connection_info, capability_error.
  me_unfold. cbn.
  destruct (_prepare_environment (cls self) _) as [[[|]|x] e2]; reflexivity.
Qed.

Lemma with_nodes_with_nodes (ns ns' : list Node) (e : Environment) :
  with_nodes ns (with_nodes ns' e) = with_nodes ns e.
Proof. reflexivity. Qed.

(** The feature loop when the platform names its feature classes: every node
    still to visit gets its feature set, the nodes before are not touched. *)
Lemma build_features_from_supported
    (self : Platform) (types : list string) :
  supported_features (cls self) = Ok types →
  ∀ (todo done : list Node) (w : World),
    nodes (env w) = done ++ todo →
    build_features_from self (length done) todo w
    = (Ok tt,
       {| env := with_nodes (done ++ map (build_features self types) todo) (env w);
          trace := trace w ++ repeat Asked_features (length todo) |}).
Proof.
  intros Hsup. induction todo as [|node rest IH]; intros done w Hnodes.
  - cbn. rewrite app_nil_r in Hnodes. rewrite !app_nil_r, <- Hnodes.
    destruct w as [[] ?]; reflexivity.
  - cbn [build_features_from]. unfold Features_init, ask_supported_features.
    me_unfold. rewrite Hsup.
    replace (S (length done)) with (length (done ++ [build_features self types node]))
      by (rewrite length_app; cbn; lia).
    rewrite IH.
    + cbn [env trace length repeat map]. unfold set_node_features.
      rewrite with_nodes_with_nodes, <- !app_assoc. reflexivity.
    + cbn [env set_node_features nodes with_nodes]. rewrite Hnodes.
      replace (length done) with (length done + 0) by lia.
      rewrite alter_app_r, <- app_assoc. reflexivity.
Qed.

(** The feature loop when [supported_features] raises: the first construction
    raises and nothing is assigned. *)
Lemma build_features_from_unsupported
    (self : Platform) (x : exn) (i : nat) (node : Node) (rest : list Node)
    (w : World) :
  supported_features (cls self) = Raise x →
  build_features_from self i (node :: rest) w
  = (Raise x, {| env := env w; trace := trace w ++ [Asked_features] |}).
Proof.
  intros Hsup. cbn [build_features_from].
  unfold Features_init, ask_supported_features. me_unfold.
  rewrite Hsup. reflexivity.
Qed.

Lemma deploy_environment_eq (self : Platform) (w : World) :
  deploy_environment self w =
  let e1 := bound_to self (env w) in
  let t1 := (trace w ++ [Logged INFO ("deploying environment: " +:+ name (env w))])
            ++ [Invoked Deploy_routine e1] in
  match _deploy_environment (cls self) e1 with
  | (Ok _, e2) =>
      let t2 := t1 ++ [Assigned Deployed] in
      match supported_features (cls self), nodes e2 with
      | Ok types, ns =>
          (Ok tt,
           {| env := with_nodes (map (build_features self types) ns)
                       (with_status Deployed e2);
              trace := (t2 ++ repeat Asked_features (length ns))
                       ++ [Logged INFO "deployed in <timer>"] |})
      | Raise x, [] =>
          (Ok tt,
           {| env := with_status Deployed e2;
              trace := t2 ++ [Logged INFO "deployed in <timer>"] |})
      | Raise x, _ :: _ =>
          (Raise x,
           {| env := with_status Deployed e2; trace := t2 ++ [Asked_features] |})
      end
  | (Raise x, e2) => (Raise x, {| env := e2; trace := t1 |})
  end.
Proof.
  unfold deploy_environment, bound_to. cbv zeta.
  unfold mbind at 1 2 3 4 5, ME_bind, bind.
  unfold assign_status, log, emit, update_env, get_env, invoke.
  unfold mbind at 1, ME_bind, bind.
  cbn [env trace].
  destruct (_deploy_environment (cls self) _) as [[[]|x] e2]; [|reflexivity].
  unfold mbind at 1 2, ME_bind, bind. cbn [env trace].
  destruct (supported_features (cls self)) as [types|x] eqn:Hsup.
  - change (nodes (with_status Deployed e2)) with (nodes e2).
    change 0 with (length (@nil Node)).
    rewrite (build_features_from_supported self types Hsup (nodes e2) []);
      [|reflexivity].
    cbn [env trace app]. reflexivity.
  - change (nodes (with_status Deployed e2)) with (nodes e2).
    destruct (nodes e2) as [|node rest] eqn:Hn.
    + cbn. reflexivity.
    + rewrite (build_features_from_unsupported self x 0 node rest _ Hsup).
      reflexivity.
Qed.

Lemma delete_environment_keep (K : string) (self : Platform) (w : World) :
  schema.keep_environment (runbook self) = K →
  delete_environment K self w =
  (Ok tt,
   {| env := with_status Deleted (close (env w));
      trace := (trace w ++
                [Logged INFO ("skipped to delete environment " +:+ name (env w)
                   +:+ ", as runbook set to keep environment.")])
               ++ [Assigned Deleted] |}).
Proof.
  intros HK. unfold delete_environment. me_unfold. cbn.
  rewrite HK, String.eqb_refl. reflexivity.
Qed.

Lemma delete_environment_eq (K : string) (self : Platform) (w : World) :
  schema.keep_environment (runbook self) ≠ K →
  delete_environment K self w =
  let e1 := close (env w) in
  let t1 := (trace w ++ [Logged DEBUG "deleting"])
            ++ [Invoked Delete_routine e1] in
  match _delete_environment (cls self) e1 with
  | (Ok _, e2) =>
      (Ok tt,
       {| env := with_status Deleted e2;
          trace := (t1 ++ [Logged DEBUG "deleted"]) ++ [Assigned Deleted] |})
  | (Raise x, e2) => (Raise x, {| env := e2; trace := t1 |})
  end.
Proof.
  intros HK. unfold delete_environment. me_unfold. cbn.
  apply String.eqb_neq in HK. rewrite HK.
  destruct (_delete_environment (cls self) _) as [[[]|x] e2]; reflexivity.
Qed.

(** ** Facts about traces and the collaborators *)

Lemma assigned_app (t1 t2 : list event) :
  assigned (t1 ++ t2) = assigned t1 ++ assigned t2.
Proof.
  induction t1 as [|ev t1 IH]; [reflexivity|].
  destruct ev; cbn; rewrite IH; reflexivity.
Qed.

Lemma invocations_app (r : routine) (t1 t2 : list event) :
  invocations r (t1 ++ t2) = invocations r t1 + invocations r t2.
Proof. unfold invocations. rewrite List.filter_app, length_app. reflexivity. Qed.

Lemma status_close (e : Environment) : status (close e) = status e.
Proof. reflexivity. Qed.

Lemma status_bound_to (self : Platform) (e : Environment) :
  status (bound_to self e) = status e.
Proof. reflexivity. Qed.

Lemma status_with_connection_info (self : Platform) (e : Environment) :
  status (with_connection_info self e) = status e.
Proof. reflexivity. Qed.

Lemma build_features_spec (self : Platform) (types : list string)
    (ns : list Node) :
  Forall (λ n, features n = Some {| features_node := node_name n;
                                    features_platform := ref_of self;
                                    feature_types := types |})
         (map (build_features self types) ns).
Proof.
  induction ns as [|n ns IH]; constructor; [reflexivity | exact IH].
Qed.

Lemma steps_app (t1 t2 : list event) :
  steps (t1 ++ t2) = steps t1 ++ steps t2.
Proof.
  induction t1 as [|ev t1 IH]; [reflexivity|].
  destruct ev; cbn; rewrite IH; reflexivity.
Qed.

Lemma steps_asked (n : nat) :
  steps (repeat Asked_features n) = repeat (Invokes Supported_features_routine) n.
Proof. induction n as [|n IH]; [reflexivity|]. cbn. rewrite IH. reflexivity. Qed.

Lemma assigned_asked (n : nat) : assigned (repeat Asked_features n) = [].
Proof. induction n as [|n IH]; [reflexivity | exact IH]. Qed.

Lemma invocations_asked (r : routine) (n : nat) :
  invocations r (repeat Asked_features n)
  = if decide (r = Supported_features_routine) then n else 0.
Proof.
  induction n as [|n IH].
  - destruct r; reflexivity.
  - unfold invocations in *. cbn [repeat List.filter].
    destruct r; cbn [is_invocation length] in *; rewrite IH; reflexivity.
Qed.

Lemma filter_deploy_asked (n : nat) :
  List.filter (is_invocation Deploy_routine) (repeat Asked_features n) = [].
Proof. induction n as [|n IH]; [reflexivity | exact IH]. Qed.

(** ** The claims *)

(** C3 — prepare_environment raises the capability error exactly when the
    platform's negotiation, [_prepare_environment], reports infeasible
    (returns False).  On that failure nothing is written to the status, which
    stays what it was (Initialized for a fresh environment); on success the
    status is advanced to Prepared.  The negotiation routine is taken to
    respect the single-writer rule and to raise no LisaException itself. *)
Theorem C3_prepare_capability_error (self : Platform) (w : World) :
  keeps_status (_prepare_environment (cls self)) →
  no_LisaException (_prepare_environment (cls self)) →
  let negotiated :=
    _prepare_environment (cls self) (with_connection_info self (env w)) in
  let out := prepare_environment self w in
  ((∃ msg, out.1 = Raise (LisaException msg)) ↔ negotiated.1 = Ok false)
  ∧ (negotiated.1 = Ok false →
       out.1 = Raise (capability_error (env out.2))
       ∧ status (env out.2) = status (env w)
       ∧ assigned (trace out.2) = assigned (trace w))
  ∧ (negotiated.1 = Ok true →
       out.1 = Ok (env out.2)
       ∧ status (env out.2) = Prepared
       ∧ assigned (trace out.2) = assigned (trace w) ++ [Prepared]).
Proof.
  intros Hkeep Hno. cbv zeta. rewrite prepare_environment_eq. cbv zeta.
  specialize (Hkeep (with_connection_info self (env w))).
  pose proof (Hno (with_connection_info self (env w))) as Hno'.
  destruct (_prepare_environment (cls self) _) as [[[|]|x] e2]; cbn in *.
  - split; [|split].
    + split; [intros [msg H]; discriminate | discriminate].
    + discriminate.
    + intros _. rewrite assigned_app, assigned_app. cbn.
      rewrite app_nil_r. auto.
  - split; [|split].
    + split; [reflexivity | intros _; eexists; reflexivity].
    + intros _. rewrite assigned_app. cbn. rewrite app_nil_r. auto.
    + discriminate.
  - split; [|split].
    + split; [|discriminate].
      intros [msg H]. exfalso. apply (Hno' msg). congruence.
    + discriminate.
    + discriminate.
Qed.

(** C4, as the code has it — deploy_environment binds [environment.platform]
    to the platform before the platform-specific deploy routine runs: the
    routine is handed the bound environment.  If the routine raises, the
    exception propagates and the status is not advanced (a Prepared
    environment stays Prepared).  If it returns, the status is assigned
    Deployed and then, node by node, a feature set is constructed with this
    platform: when the platform's [supported_features] returns, every node of
    the environment gets its feature set and the call returns; when it raises
    and the environment has a node, that exception propagates with the status
    already Deployed and no feature set assigned. *)
Theorem C4_deploy_binds_then_deploys (self : Platform) (w : World) :
  keeps_status (_deploy_environment (cls self)) →
  let handed := bound_to self (env w) in
  let deployed := _deploy_environment (cls self) handed in
  let out := deploy_environment self w in
  platform handed = Some (ref_of self)
  ∧ List.filter (is_invocation Deploy_routine) (trace out.2)
    = List.filter (is_invocation Deploy_routine) (trace w)
      ++ [Invoked Deploy_routine handed]
  ∧ steps (trace out.2)
    = steps (trace w)
      ++ Invokes Deploy_routine
         :: (if is_ok deployed.1
             then Assigns Deployed
                  :: repeat (Invokes Supported_features_routine)
                       (constructions self (nodes deployed.2))
             else [])
  ∧ (∀ x, deployed.1 = Raise x →
       out.1 = Raise x
       ∧ env out.2 = deployed.2
       ∧ status (env out.2) = status (env w)
       ∧ assigned (trace out.2) = assigned (trace w))
  ∧ (deployed.1 = Ok tt →
       status (env out.2) = Deployed
       ∧ assigned (trace out.2) = assigned (trace w) ++ [Deployed]
       ∧ (∀ types, supported_features (cls self) = Ok types →
            out.1 = Ok tt
            ∧ nodes (env out.2)
              = map (build_features self types) (nodes deployed.2)
            ∧ Forall (λ n, features n
                           = Some {| features_node := node_name n;
                                     features_platform := ref_of self;
                                     feature_types := types |})
                     (nodes (env out.2)))
       ∧ (∀ x, supported_features (cls self) = Raise x →
            nodes deployed.2 ≠ [] →
            out.1 = Raise x
            ∧ nodes (env out.2) = nodes deployed.2)).
Proof.
  intros Hkeep. cbv zeta. rewrite deploy_environment_eq. cbv zeta.
  specialize (Hkeep (bound_to self (env w))). unfold constructions.
  destruct (_deploy_environment (cls self) _) as [[[]|x] e2];
    cbn [fst snd is_ok] in *.
  - destruct (supported_features (cls self)) as [types|y] eqn:Hsup;
      [|destruct (nodes e2) as [|node rest] eqn:Hn];
      cbn [fst snd env trace status nodes with_nodes with_status];
      rewrite ?List.filter_app, ?filter_deploy_asked, ?steps_app,
        ?steps_asked, ?assigned_app, ?assigned_asked;
      cbn [List.filter is_invocation steps assigned app length repeat];
      rewrite ?app_nil_r.
    + split; [reflexivity|]. split; [reflexivity|].
      split; [rewrite <- !app_assoc; reflexivity|].
      split; [discriminate|]. intros _.
      split; [reflexivity|]. split; [reflexivity|]. split.
      * intros types' H. injection H as <-.
        split; [reflexivity|]. split; [reflexivity|].
        apply build_features_spec.
      * discriminate.
    + split; [reflexivity|]. split; [reflexivity|].
      split; [rewrite <- !app_assoc; reflexivity|].
      split; [discriminate|]. intros _.
      split; [reflexivity|]. split; [reflexivity|]. split.
      * discriminate.
      * intros y' _ Hne. contradiction.
    + split; [reflexivity|]. split; [reflexivity|].
      split; [rewrite <- !app_assoc; reflexivity|].
      split; [discriminate|]. intros _.
      split; [reflexivity|]. split; [reflexivity|]. split.
      * discriminate.
      * intros y' H _. injection H as <-. rewrite Hn. split; reflexivity.
  - cbn [fst snd env trace status].
    rewrite ?List.filter_app, ?steps_app, ?assigned_app.
    cbn [List.filter is_invocation steps assigned app].
    rewrite ?app_nil_r.
    split; [reflexivity|]. split; [reflexivity|].
    split; [reflexivity|].
    split; [|discriminate]. intros y Hy. injection Hy as <-.
    split; [reflexivity|]. split; [reflexivity|].
    split; [exact Hkeep | reflexivity].
Qed.

(** C5, as the code has it — when the retention flag does not say "always
    keep" and the platform-specific deletion routine raises, delete_environment
    lets the exception propagate to the caller: nothing is logged about the
    failure and the status is not advanced to Deleted. *)
Theorem C5_delete_failure_propagates
    (K : string) (self : Platform) (w : World) (x : exn) :
  schema.keep_environment (runbook self) ≠ K →
  keeps_status (_delete_environment (cls self)) →
  (_delete_environment (cls self) (close (env w))).1 = Raise x →
  let out := delete_environment K self w in
  out.1 = Raise x
  ∧ status (env out.2) = status (env w)
  ∧ assigned (trace out.2) = assigned (trace w)
  ∧ trace out.2 = (trace w ++ [Logged DEBUG "deleting"])
                  ++ [Invoked Delete_routine (close (env w))].
Proof.
  intros HK Hkeep Hraise. cbv zeta. rewrite delete_environment_eq by exact HK.
  cbv zeta. specialize (Hkeep (close (env w))).
  destruct (_delete_environment (cls self) _) as [[[]|y] e2]; cbn in *;
    [discriminate|].
  injection Hraise as ->.
  rewrite !assigned_app. cbn. rewrite !app_nil_r. auto.
Qed.

(** C7 — when the runbook's keep_environment is the "always keep" value,
    delete_environment returns normally with the status set to Deleted and
    invokes no platform-specific routine: the trace gains no invocation, and
    the outcome is the same whatever the platform class's routines are. *)
Theorem C7_keep_always_skips_teardown
    (K : string) (self : Platform) (w : World) :
  schema.keep_environment (runbook self) = K →
  let out := delete_environment K self w in
  out.1 = Ok tt
  ∧ status (env out.2) = Deleted
  ∧ (∀ r, invocations r (trace out.2) = invocations r (trace w))
  ∧ (∀ c, delete_environment K {| cls := c; runbook := runbook self |} w = out).
Proof.
  intros HK. cbv zeta. rewrite delete_environment_keep by exact HK.
  cbn [fst snd trace env].
  split; [reflexivity|]. split; [reflexivity|]. split.
  - intros r. rewrite !invocations_app. destruct r; cbn; lia.
  - intros c. rewrite delete_environment_keep by exact HK. reflexivity.
Qed.

(** C6, as the code has it — delete_environment does not look at the status.
    Called on an environment that is already Deleted, with retention "always
    keep" it returns normally and invokes no deletion routine; otherwise it
    invokes the platform-specific deletion routine once more and raises
    exactly when that routine raises.  Either way the status is Deleted
    afterwards. *)
Theorem C6_second_delete (K : string) (self : Platform) (w : World) :
  status (env w) = Deleted →
  keeps_status (_delete_environment (cls self)) →
  let torn_down := _delete_environment (cls self) (close (env w)) in
  let out := delete_environment K self w in
  status (env out.2) = Deleted
  ∧ (schema.keep_environment (runbook self) = K →
       out.1 = Ok tt
       ∧ invocations Delete_routine (trace out.2)
         = invocations Delete_routine (trace w))
  ∧ (schema.keep_environment (runbook self) ≠ K →
       out.1 = torn_down.1
       ∧ invocations Delete_routine (trace out.2)
         = S (invocations Delete_routine (trace w))).
Proof.
  intros Hdel Hkeep. cbv zeta.
  destruct (decide (schema.keep_environment (runbook self) = K)) as [HK|HK].
  - rewrite delete_environment_keep by exact HK. cbn [fst snd trace env].
    split; [reflexivity|]. split; [|intros H; contradiction].
    intros _. split; [reflexivity|].
    rewrite !invocations_app. cbn. lia.
  - rewrite delete_environment_eq by exact HK. cbv zeta.
    specialize (Hkeep (close (env w))). rewrite status_close in Hkeep.
    destruct (_delete_environment (cls self) _) as [[[]|y] e2];
      cbn [fst snd trace env] in *.
    + split; [reflexivity|]. split; [intros H; contradiction|].
      intros _. split; [reflexivity|].
      rewrite !invocations_app. cbn. lia.
    + split; [congruence|]. split; [intros H; contradiction|].
      intros _. split; [reflexivity|].
      rewrite !invocations_app. cbn. lia.
Qed.

(** ** The information hook *)

Lemma get_environment_information_unowned (self : Platform) (w : World) :
  platform (env w) = None →
  get_environment_information self w = (Raise AssertionError, w).
Proof.
  intros Hnone. unfold get_environment_information. me_unfold.
  rewrite Hnone. reflexivity.
Qed.

Lemma get_environment_information_other
    (self : Platform) (w : World) (owner : PlatformRef) :
  platform (env w) = Some owner →
  ref_type_name owner ≠ type_name (cls self) →
  get_environment_information self w = (Ok ∅, w).
Proof.
  intros Hown Hne. unfold get_environment_information. me_unfold.
  rewrite Hown. apply String.eqb_neq in Hne. rewrite Hne. reflexivity.
Qed.

Lemma get_environment_information_own
    (self : Platform) (w : World) (owner : PlatformRef) :
  platform (env w) = Some owner →
  ref_type_name owner = type_name (cls self) →
  get_environment_information self w =
  let t1 := trace w ++ [Invoked Information_routine (env w)] in
  let information : gmap string string :=
    {[ "platform" := type_name (cls self) ]} in
  match _get_environment_information (cls self) (env w) with
  | (Ok extra, e2) => (Ok (extra ∪ information), {| env := e2; trace := t1 |})
  | (Raise x, e2) =>
      (Ok information,
       {| env := e2;
          trace := t1 ++ [Logged ERROR
                            "failed to get environment information on platform"] |})
  end.
Proof.
  intros Hown Heq. unfold get_environment_information. me_unfold.
  rewrite Hown, Heq, String.eqb_refl. cbn.
  rewrite insert_empty.
  destruct (_get_environment_information (cls self) _) as [[extra|x] e2];
    reflexivity.
Qed.

(** C8 — for an environment that has an owning platform:
    get_environment_information returns the empty mapping, and does nothing
    else, when the owner's type name differs from the contributor's; when it
    matches, the result always is a mapping holding the key "platform", and an
    exception raised by [_get_environment_information] is caught and logged:
    the call returns the mapping that holds just the platform name. *)
Theorem C8_information_filter_and_isolation
    (self : Platform) (w : World) (owner : PlatformRef) :
  platform (env w) = Some owner →
  let gathered := _get_environment_information (cls self) (env w) in
  let out := get_environment_information self w in
  (ref_type_name owner ≠ type_name (cls self) → out = (Ok ∅, w))
  ∧ (ref_type_name owner = type_name (cls self) →
       (∃ information : gmap string string,
           out.1 = Ok information ∧ is_Some (information !! "platform"))
       ∧ (∀ x, gathered.1 = Raise x →
            out.1 = Ok {[ "platform" := ref_type_name owner ]}
            ∧ trace out.2
              = (trace w ++ [Invoked Information_routine (env w)])
                ++ [Logged ERROR
                      "failed to get environment information on platform"])
       ∧ (∀ extra, gathered.1 = Ok extra →
            out.1 = Ok (extra ∪ {[ "platform" := ref_type_name owner ]}))).
Proof.
  intros Hown. cbv zeta. split.
  - intros Hne. apply (get_environment_information_other self w owner Hown Hne).
  - intros Heq.
    rewrite (get_environment_information_own self w owner Hown Heq). cbv zeta.
    rewrite Heq.
    destruct (_get_environment_information (cls self) _) as [[extra|x] e2];
      cbn [fst snd trace env].
    + split; [|split].
      * eexists. split; [reflexivity|].
        apply lookup_union_is_Some. right.
        rewrite lookup_singleton_eq. eauto.
      * discriminate.
      * intros extra' H. injection H as <-. reflexivity.
    + split; [|split].
      * eexists. split; [reflexivity|].
        rewrite lookup_singleton_eq. eauto.
      * intros y _. split; reflexivity.
      * discriminate.
Qed.

(** C10 — on an environment whose owning-platform reference is unset,
    get_environment_information raises AssertionError and does nothing else:
    no mapping is returned, the information routine is not invoked and nothing
    is logged.  The call returns normally exactly when the environment has an
    owning platform. *)
Theorem C10_information_needs_owner (self : Platform) (w : World) :
  (platform (env w) = None →
     get_environment_information self w = (Raise AssertionError, w))
  ∧ (is_ok (get_environment_information self w).1 = true
     ↔ platform (env w) ≠ None).
Proof.
  split; [apply get_environment_information_unowned|].
  destruct (platform (env w)) as [owner|] eqn:Hown.
  - split; [discriminate|]. intros _.
    destruct (decide (ref_type_name owner = type_name (cls self))) as [Heq|Hne].
    + rewrite (get_environment_information_own self w owner Hown Heq).
      cbv zeta.
      destruct (_get_environment_information (cls self) _) as [[extra|x] e2];
        reflexivity.
    + rewrite (get_environment_information_other self w owner Hown Hne).
      reflexivity.
  - rewrite (get_environment_information_unowned self w Hown). cbn.
    split; [discriminate | intros H; contradiction].
Qed.

(** ** Credentials *)

Lemma fill_connection_info_credentials (rb : schema.Platform) (n : Node) :
  credentials (fill_connection_info rb n) =
  if is_remote n then
    (Some (default (schema.admin_username rb) (username n)),
     Some (default (schema.admin_password rb) (password n)),
     Some (default (schema.admin_private_key_file rb) (private_key_file n)))
  else credentials n.
Proof. unfold fill_connection_info. destruct (is_remote n); reflexivity. Qed.

Lemma fill_connection_info_lacking (rb : schema.Platform) (n : Node) :
  is_remote n = true → lacks_credentials n →
  credentials (fill_connection_info rb n) = default_credentials rb.
Proof.
  intros Hr Hl. rewrite fill_connection_info_credentials, Hr.
  unfold lacks_credentials, credentials in Hl.
  injection Hl as -> -> ->. reflexivity.
Qed.

Lemma fill_connection_info_explicit (rb : schema.Platform) (n : Node) :
  explicit_credentials n →
  credentials (fill_connection_info rb n) = credentials n.
Proof.
  intros ([u Hu] & [p Hp] & [k Hk]).
  rewrite fill_connection_info_credentials. unfold credentials.
  rewrite Hu, Hp, Hk. destruct (is_remote n); reflexivity.
Qed.

Lemma fill_connection_info_local (rb : schema.Platform) (n : Node) :
  is_remote n = false →
  fill_connection_info rb n = n.
Proof. intros Hr. unfold fill_connection_info. rewrite Hr. reflexivity. Qed.

Lemma prepare_environment_credentials (self : Platform) (w : World) :
  keeps_credentials (_prepare_environment (cls self)) →
  map credentials (nodes (env (prepare_environment self w).2))
  = map (λ n, credentials (fill_connection_info (runbook self) n))
        (nodes (env w)).
Proof.
  intros Hkeep. rewrite prepare_environment_eq. cbv zeta.
  specialize (Hkeep (with_connection_info self (env w))).
  destruct (_prepare_environment (cls self) _) as [[[|]|x] e2];
    cbn [fst snd env nodes with_status] in *;
    rewrite Hkeep; unfold with_connection_info; cbn [nodes with_nodes];
    apply List.map_map.
Qed.

(** C9 — after prepare_environment (whether it returns or raises), with a
    negotiation routine that leaves node credentials alone: a remote node
    that had no credentials of its own holds the platform runbook's admin
    username, password and private-key file; a node that had explicit
    credentials holds exactly those; a node that is not remote is not
    touched.  Field by field, a remote node keeps what it had and receives the
    default only where it had nothing. *)
Theorem C9_credentials_fill_if_absent
    (self : Platform) (w : World) (i : nat) (node : Node) :
  keeps_credentials (_prepare_environment (cls self)) →
  nodes (env w) !! i = Some node →
  ∃ node', nodes (env (prepare_environment self w).2) !! i = Some node'
    ∧ (is_remote node = true → lacks_credentials node →
         credentials node' = default_credentials (runbook self))
    ∧ (explicit_credentials node → credentials node' = credentials node)
    ∧ (is_remote node = false → credentials node' = credentials node)
    ∧ (is_remote node = true →
         username node'
         = Some (default (schema.admin_username (runbook self)) (username node))
         ∧ password node'
           = Some (default (schema.admin_password (runbook self)) (password node))
         ∧ private_key_file node'
           = Some (default (schema.admin_private_key_file (runbook self))
                     (private_key_file node))).
Proof.
  intros Hkeep Hi.
  pose proof (prepare_environment_credentials self w Hkeep) as Hmap.
  assert (Hlook : (credentials <$> nodes (env (prepare_environment self w).2)) !! i
                  = Some (credentials (fill_connection_info (runbook self) node))).
  { change (credentials <$> ?l) with (map credentials l). rewrite Hmap.
    change (map ?f ?l) with (f <$> l).
    rewrite list_lookup_fmap, Hi. reflexivity. }
  rewrite list_lookup_fmap in Hlook.
  destruct (nodes (env (prepare_environment self w).2) !! i) as [node'|] eqn:Hn';
    [|discriminate].
  change (Some (credentials node')
          = Some (credentials (fill_connection_info (runbook self) node)))
    in Hlook.
  apply (inj Some) in Hlook. rename Hlook into Hc.
  exists node'. split; [reflexivity|].
  split; [|split; [|split]].
  - intros Hr Hl. rewrite Hc. apply fill_connection_info_lacking; assumption.
  - intros He. rewrite Hc. apply fill_connection_info_explicit; assumption.
  - intros Hr. rewrite Hc, fill_connection_info_local by exact Hr. reflexivity.
  - intros Hr. rewrite fill_connection_info_credentials, Hr in Hc.
    unfold credentials in Hc. injection Hc as -> -> ->. auto.
Qed.

(** ** Loading *)

Lemma create_by_runbook_found
    (registered : list PlatformClass) (rb : schema.Platform) (st : Loader)
    (c : PlatformClass) :
  List.find (λ c, String.eqb (type_name c) (schema.type rb)) registered = Some c →
  create_by_runbook registered rb st
  = (Ok {| cls := c; runbook := rb |},
     {| plugins := plugins st ++ [{| cls := c; runbook := rb |}];
        init_log := init_log st |}).
Proof. intros Hf. unfold create_by_runbook. rewrite Hf. reflexivity. Qed.

Lemma create_by_runbook_unknown
    (registered : list PlatformClass) (rb : schema.Platform) (st : Loader) :
  List.find (λ c, String.eqb (type_name c) (schema.type rb)) registered = None →
  ∃ msg, create_by_runbook registered rb st = (Raise (LisaException msg), st).
Proof.
  intros Hf. unfold create_by_runbook. rewrite Hf. eexists. reflexivity.
Qed.

(** C2 — load_platform raises the configuration error "There must be 1 and
    only 1 platform", and constructs nothing, when the list of platform
    runbooks does not have exactly one element.  For a list of one runbook it
    either returns a Platform of a registered class whose type name is the
    runbook's declared type, holding that runbook, having constructed (and
    registered with the plugin manager) that one instance and no other; or,
    when no registered class has the declared type name, it raises a
    LisaException and constructs nothing. *)
Theorem C2_load_platform_one_and_only_one
    (registered : list PlatformClass) (platforms_runbook : list schema.Platform)
    (st : Loader) :
  let out := load_platform registered platforms_runbook st in
  (length platforms_runbook ≠ 1 →
     out = (Raise (LisaException "There must be 1 and only 1 platform"), st))
  ∧ (∀ rb, platforms_runbook = [rb] →
       match out.1 with
       | Ok p =>
           type_name (cls p) = schema.type rb
           ∧ runbook p = rb
           ∧ In (cls p) registered
           ∧ plugins out.2 = plugins st ++ [p]
       | Raise e =>
           (∃ msg, e = LisaException msg)
           ∧ (∀ c, In c registered → type_name c ≠ schema.type rb)
           ∧ out.2 = st
       end).
Proof.
  cbv zeta. split.
  - intros Hlen. unfold load_platform.
    destruct (Nat.eqb_spec (length platforms_runbook) 1) as [H1|H1];
      [contradiction | reflexivity].
  - intros rb ->. unfold load_platform. cbn [length Nat.eqb negb].
    me_unfold.
    destruct (List.find (λ c, String.eqb (type_name c) (schema.type rb)) registered)
      as [c|] eqn:Hf.
    + rewrite (create_by_runbook_found registered rb st c Hf).
      cbn [fst snd plugins init_debug cls runbook].
      apply List.find_some in Hf as [Hin Hname].
      apply String.eqb_eq in Hname. auto.
    + destruct (create_by_runbook_unknown registered rb st Hf) as [msg ->].
      cbn [fst snd]. split; [eauto|]. split; [|reflexivity].
      intros c Hin Hname.
      pose proof (List.find_none _ _ Hf c Hin) as Hno. cbn in Hno.
      apply String.eqb_neq in Hno. contradiction.
Qed.

(** ** The lifecycle *)

Lemma drive_cons (K : string) (self : Platform) (c : call) (rest : list call)
    (w : World) :
  drive K self (c :: rest) w =
  match perform K self c w with
  | (Ok _, w') => drive K self rest w'
  | (Raise x, w') => (Raise x, w')
  end.
Proof. reflexivity. Qed.

(** Each call either returns, having written its own status whatever the
    status was; or raises, having written nothing; or raises after having
    written its own status (a deploy that fails while it builds features). *)
Lemma perform_summary (K : string) (self : Platform) (c : call) (w : World) :
  single_writer (cls self) →
  let out := perform K self c w in
  (out.1 = Ok tt
   ∧ status (env out.2) = written c
   ∧ assigned (trace out.2) = assigned (trace w) ++ [written c])
  ∨ ((∃ x, out.1 = Raise x)
     ∧ status (env out.2) = status (env w)
     ∧ assigned (trace out.2) = assigned (trace w))
  ∨ ((∃ x, out.1 = Raise x)
     ∧ status (env out.2) = written c
     ∧ assigned (trace out.2) = assigned (trace w) ++ [written c]).
Proof.
  intros (Hp & Hd & Hx). cbv zeta. destruct c; unfold perform.
  - unfold mbind, ME_bind, bind, mret, ME_ret, ret.
    rewrite prepare_environment_eq. cbv zeta.
    specialize (Hp (with_connection_info self (env w))).
    destruct (_prepare_environment (cls self) _) as [[[|]|x] e2];
      cbn [fst snd env trace status with_status written] in *;
      rewrite ?assigned_app; cbn [assigned]; rewrite ?app_nil_r; eauto 6.
  - rewrite deploy_environment_eq. cbv zeta.
    specialize (Hd (bound_to self (env w))).
    destruct (_deploy_environment (cls self) _) as [[[]|x] e2];
      [destruct (supported_features (cls self)) as [types|y];
       [|destruct (nodes e2)]|];
      cbn [fst snd env trace status with_status with_nodes written] in *;
      rewrite ?assigned_app, ?assigned_asked; cbn [assigned];
      rewrite ?app_nil_r; eauto 7.
  - destruct (decide (schema.keep_environment (runbook self) = K)) as [HK|HK].
    + rewrite delete_environment_keep by exact HK.
      cbn [fst snd env trace status with_status written].
      rewrite ?assigned_app; cbn [assigned]; rewrite ?app_nil_r; eauto 6.
    + rewrite delete_environment_eq by exact HK. cbv zeta.
      specialize (Hx (close (env w))).
      destruct (_delete_environment (cls self) _) as [[[]|x] e2];
        cbn [fst snd env trace status with_status written] in *;
        rewrite ?assigned_app; cbn [assigned]; rewrite ?app_nil_r; eauto 6.
Qed.

Lemma in_order_cons (s : EnvironmentStatus) (c : call) (rest : list call) :
  c :: rest `prefix_of` remaining s →
  after s = written c :: after (written c)
  ∧ rest `prefix_of` remaining (written c).
Proof.
  intros Hpre. destruct s; cbn in Hpre.
  - pose proof (prefix_cons_inv_1 _ _ _ _ Hpre) as ->.
    apply prefix_cons_inv_2 in Hpre. split; [reflexivity | exact Hpre].
  - pose proof (prefix_cons_inv_1 _ _ _ _ Hpre) as ->.
    apply prefix_cons_inv_2 in Hpre. split; [reflexivity | exact Hpre].
  - pose proof (prefix_cons_inv_1 _ _ _ _ Hpre) as ->.
    apply prefix_cons_inv_2 in Hpre. split; [reflexivity | exact Hpre].
  - exfalso. exact (prefix_nil_not _ _ Hpre).
Qed.

Lemma drive_in_order (K : string) (self : Platform) :
  single_writer (cls self) →
  ∀ (calls : list call) (w : World),
    calls `prefix_of` remaining (status (env w)) →
    ∃ ss,
      assigned (trace (drive K self calls w).2) = assigned (trace w) ++ ss
      ∧ ss `prefix_of` after (status (env w))
      ∧ last (status (env w) :: ss)
        = Some (status (env (drive K self calls w).2)).
Proof.
  intros Hsw. induction calls as [|c rest IH]; intros w Hpre.
  - exists []. cbn. rewrite app_nil_r.
    split; [reflexivity|]. split; [apply prefix_nil | reflexivity].
  - rewrite drive_cons.
    pose proof (perform_summary K self c w Hsw) as Hs. cbv zeta in Hs.
    destruct (in_order_cons _ _ _ Hpre) as [Hafter Hrest].
    destruct (perform K self c w) as [[[]|x] w'] eqn:Hp; cbn [fst snd] in Hs.
    + destruct Hs as [(_ & Hst & Has) | [([y Hy] & _) | ([y Hy] & _)]];
        [|discriminate|discriminate].
      rewrite <- Hst in Hrest.
      destruct (IH w' Hrest) as (ss & H1 & H2 & H3).
      exists (written c :: ss).
      split; [|split].
      * rewrite H1, Has, <- app_assoc. reflexivity.
      * rewrite Hafter, <- Hst. apply prefix_cons. exact H2.
      * rewrite <- H3, Hst. reflexivity.
    + destruct Hs as [(Hok & _) | [(_ & Hst & Has) | (_ & Hst & Has)]];
        [discriminate| |].
      * exists []. cbn [fst snd]. rewrite app_nil_r.
        split; [exact Has|]. split; [apply prefix_nil|].
        cbn. rewrite Hst. reflexivity.
      * exists [written c]. cbn [fst snd].
        split; [exact Has|]. split.
        -- rewrite Hafter. apply prefix_cons, prefix_nil.
        -- cbn. rewrite Hst. reflexivity.
Qed.

(** C1, as the code has it — for an environment that starts Initialized and
    is driven through prepare_environment, deploy_environment and
    delete_environment in that order (any initial part of that sequence, the
    sequence ending at the first call that raises), by a platform whose
    routines leave the status alone, the status values observed are a prefix
    of Initialized, Prepared, Deployed, Deleted, and the last one observed is
    the environment's status.  The calls themselves never look at the current
    status: whenever one returns, the status is the one that call writes. *)
Theorem C1_in_order_lifecycle
    (K : string) (self : Platform) (e : Environment) (calls : list call) :
  single_writer (cls self) →
  status e = Initialized →
  calls `prefix_of` [Prepare; Deploy; Delete] →
  observed K self calls e `prefix_of` lifecycle
  ∧ last (observed K self calls e)
    = Some (status (env (drive K self calls (start e)).2))
  ∧ (∀ c w, (perform K self c w).1 = Ok tt →
            status (env (perform K self c w).2) = written c).
Proof.
  intros Hsw Hinit Hpre.
  destruct (drive_in_order K self Hsw calls (start e)) as (ss & H1 & H2 & H3).
  { cbn [start env]. rewrite Hinit. exact Hpre. }
  cbn [start env trace assigned app] in H1, H2, H3.
  unfold observed. rewrite H1.
  split; [|split].
  - rewrite Hinit in *. apply prefix_cons. exact H2.
  - exact H3.
  - intros c w Hok.
    destruct (perform_summary K self c w Hsw)
      as [(_ & Hst & _) | [([x Hx] & _) | ([x Hx] & _)]];
      [exact Hst | congruence | congruence].
Qed.

(** ** The claims on concrete platforms *)

Import Samples.

Lemma simulated_single_writer : single_writer simulated.
Proof. repeat split. Qed.

(** C1 fails as stated: deploy_environment on an environment that was never
    prepared is not rejected; it returns and the status goes from Initialized
    straight to Deployed.  A prepare after the deploy is not rejected either
    and takes the status back to Prepared. *)
Lemma C1_deploy_before_prepare :
  (deploy_environment sim (start fresh)).1 = Ok tt
  ∧ observed KEEP_ALWAYS sim [Deploy] fresh = [Initialized; Deployed]
  ∧ ¬ observed KEEP_ALWAYS sim [Deploy] fresh `prefix_of` lifecycle
  ∧ observed KEEP_ALWAYS sim [Prepare; Deploy; Prepare] fresh
    = [Initialized; Prepared; Deployed; Prepared].
Proof.
  split; [reflexivity|]. split; [reflexivity|]. split; [|reflexivity].
  intros [k Hk]. vm_compute in Hk. discriminate.
Qed.

Lemma C1_in_order_lifecycle_witness :
  single_writer (cls sim)
  ∧ status fresh = Initialized
  ∧ [Prepare; Deploy; Delete] `prefix_of` [Prepare; Deploy; Delete]
  ∧ observed KEEP_ALWAYS sim [Prepare; Deploy; Delete] fresh `prefix_of` lifecycle.
Proof.
  split; [exact simulated_single_writer|].
  split; [reflexivity|].
  split; [exists []; reflexivity|].
  apply (C1_in_order_lifecycle KEEP_ALWAYS sim fresh [Prepare; Deploy; Delete]).
  - exact simulated_single_writer.
  - reflexivity.
  - exists []. reflexivity.
Defined.

Lemma C2_load_platform_one_and_only_one_witness :
  length ([] : list schema.Platform) ≠ 1
  ∧ load_platform [broken; simulated] [] nothing
    = (Raise (LisaException "There must be 1 and only 1 platform"), nothing)
  ∧ match (load_platform [broken; simulated] [rb "simulated" "no"] nothing).1 with
    | Ok p => type_name (cls p) = "simulated"
    | Raise _ => False
    end.
Proof.
  split; [cbn; lia|]. split.
  - apply (C2_load_platform_one_and_only_one [broken; simulated] [] nothing).
    cbn. lia.
  - pose proof (proj2 (C2_load_platform_one_and_only_one
                         [broken; simulated] [rb "simulated" "no"] nothing)
                  (rb "simulated" "no") eq_refl) as H.
    destruct (load_platform [broken; simulated] [rb "simulated" "no"] nothing).1
      as [p|x].
    + exact (proj1 H).
    + destruct H as (_ & Hnone & _).
      apply (Hnone simulated); [right; left; reflexivity | reflexivity].
Defined.

Lemma C3_prepare_capability_error_witness :
  keeps_status (_prepare_environment (cls bad))
  ∧ no_LisaException (_prepare_environment (cls bad))
  ∧ (_prepare_environment (cls bad) (with_connection_info bad fresh)).1 = Ok false
  ∧ (∃ msg, (prepare_environment bad (start fresh)).1 = Raise (LisaException msg))
  ∧ status (env (prepare_environment bad (start fresh)).2) = Initialized.
Proof.
  assert (H1 : keeps_status (_prepare_environment (cls bad)))
    by (intros e; reflexivity).
  assert (H2 : no_LisaException (_prepare_environment (cls bad)))
    by (intros e msg; discriminate).
  split; [exact H1|]. split; [exact H2|]. split; [reflexivity|].
  destruct (C3_prepare_capability_error bad (start fresh) H1 H2)
    as (Hiff & Hfail & _).
  split.
  - apply Hiff. reflexivity.
  - apply (Hfail eq_refl).
Defined.

(** C4 fails as stated: on a platform whose deploy routine returns but whose
    [supported_features] is the base class's, deploy_environment advances the
    status to Deployed and then raises NotImplementedError while it builds
    the first feature set; no node has a feature set. *)
Lemma C4_deployed_without_features :
  (_deploy_environment (cls MoreSamples.plain)
     (bound_to MoreSamples.plain prepared)).1 = Ok tt
  ∧ (deploy_environment MoreSamples.plain (start prepared)).1
    = Raise NotImplementedError
  ∧ status (env (deploy_environment MoreSamples.plain (start prepared)).2)
    = Deployed
  ∧ Forall (λ n, features n = None)
      (nodes (env (deploy_environment MoreSamples.plain (start prepared)).2)).
Proof.
  split; [reflexivity|]. split; [reflexivity|]. split; [reflexivity|].
  repeat constructor.
Qed.

Lemma C4_deploy_binds_then_deploys_witness :
  keeps_status (_deploy_environment (cls bad))
  ∧ (_deploy_environment (cls bad) (bound_to bad prepared)).1
    = Raise (OtherException "quota exceeded")
  ∧ (deploy_environment bad (start prepared)).1
    = Raise (OtherException "quota exceeded")
  ∧ status (env (deploy_environment bad (start prepared)).2) = Prepared
  ∧ keeps_status (_deploy_environment (cls sim))
  ∧ (_deploy_environment (cls sim) (bound_to sim prepared)).1 = Ok tt
  ∧ supported_features (cls sim) = Ok ["StartStop"; "SerialConsole"]
  ∧ status (env (deploy_environment sim (start prepared)).2) = Deployed
  ∧ (deploy_environment sim (start prepared)).1 = Ok tt
  ∧ keeps_status (_deploy_environment (cls MoreSamples.plain))
  ∧ supported_features (cls MoreSamples.plain) = Raise NotImplementedError
  ∧ nodes (_deploy_environment (cls MoreSamples.plain)
             (bound_to MoreSamples.plain prepared)).2 ≠ []
  ∧ (deploy_environment MoreSamples.plain (start prepared)).1
    = Raise NotImplementedError.
Proof.
  assert (H1 : keeps_status (_deploy_environment (cls bad)))
    by (intros e; reflexivity).
  assert (H2 : keeps_status (_deploy_environment (cls sim)))
    by (intros e; reflexivity).
  assert (H3 : keeps_status (_deploy_environment (cls MoreSamples.plain)))
    by (intros e; reflexivity).
  assert (H4 : nodes (_deploy_environment (cls MoreSamples.plain)
                        (bound_to MoreSamples.plain prepared)).2 ≠ [])
    by discriminate.
  split; [exact H1|]. split; [reflexivity|].
  destruct (C4_deploy_binds_then_deploys bad (start prepared) H1)
    as (_ & _ & _ & Hraise & _).
  destruct (Hraise (OtherException "quota exceeded") eq_refl)
    as (Hr & _ & Hs & _).
  split; [exact Hr|]. split; [exact Hs|].
  split; [exact H2|]. split; [reflexivity|]. split; [reflexivity|].
  destruct (C4_deploy_binds_then_deploys sim (start prepared) H2)
    as (_ & _ & _ & _ & Hok).
  destruct (Hok eq_refl) as (Hst & _ & Hsup & _).
  split; [exact Hst|].
  split; [exact (proj1 (Hsup _ eq_refl))|].
  split; [exact H3|]. split; [reflexivity|]. split; [exact H4|].
  destruct (C4_deploy_binds_then_deploys MoreSamples.plain (start prepared) H3)
    as (_ & _ & _ & _ & Hok').
  destruct (Hok' eq_refl) as (_ & _ & _ & Hunsup).
  exact (proj1 (Hunsup NotImplementedError eq_refl H4)).
Defined.

(** C5 fails as stated: with a deletion routine that raises,
    delete_environment raises the same exception to its caller, the status
    stays Deployed and no failure record is logged. *)
Lemma C5_teardown_failure_not_absorbed :
  (_delete_environment (cls bad) (close (deployed_by bad))).1
  = Raise (OtherException "resource group locked")
  ∧ (delete_environment KEEP_ALWAYS bad (start (deployed_by bad))).1
    = Raise (OtherException "resource group locked")
  ∧ status (env (delete_environment KEEP_ALWAYS bad (start (deployed_by bad))).2)
    = Deployed
  ∧ List.filter is_error_record
      (trace (delete_environment KEEP_ALWAYS bad (start (deployed_by bad))).2)
    = [].
Proof. repeat split. Qed.

Lemma C5_delete_failure_propagates_witness :
  schema.keep_environment (runbook bad) ≠ KEEP_ALWAYS
  ∧ keeps_status (_delete_environment (cls bad))
  ∧ (_delete_environment (cls bad) (close (env (start (deployed_by bad))))).1
    = Raise (OtherException "resource group locked")
  ∧ (delete_environment KEEP_ALWAYS bad (start (deployed_by bad))).1
    = Raise (OtherException "resource group locked")
  ∧ status (env (delete_environment KEEP_ALWAYS bad (start (deployed_by bad))).2)
    = Deployed.
Proof.
  assert (H1 : schema.keep_environment (runbook bad) ≠ KEEP_ALWAYS)
    by discriminate.
  assert (H2 : keeps_status (_delete_environment (cls bad)))
    by (intros e; reflexivity).
  split; [exact H1|]. split; [exact H2|]. split; [reflexivity|].
  destruct (C5_delete_failure_propagates KEEP_ALWAYS bad
              (start (deployed_by bad)) (OtherException "resource group locked")
              H1 H2 eq_refl) as (Hr & Hs & _).
  split; [exact Hr | exact Hs].
Defined.

(** C6 fails as stated: a second delete_environment on an environment that
    the first call marked Deleted invokes the deletion routine a second time;
    and with a platform whose teardown fails once the resources are gone, the
    second call raises. *)
Lemma C6_second_delete_tears_down_again :
  status (env (delete_environment KEEP_ALWAYS sim (start fresh)).2) = Deleted
  ∧ invocations Delete_routine
      (trace (delete_environment KEEP_ALWAYS sim (start fresh)).2) = 1
  ∧ invocations Delete_routine
      (trace (delete_environment KEEP_ALWAYS sim
                (delete_environment KEEP_ALWAYS sim (start fresh)).2).2) = 2
  ∧ (delete_environment KEEP_ALWAYS once (start fresh)).1 = Ok tt
  ∧ (delete_environment KEEP_ALWAYS once
       (delete_environment KEEP_ALWAYS once (start fresh)).2).1
    = Raise (OtherException "resource group not found").
Proof. repeat split. Qed.

Lemma C6_second_delete_witness :
  status (env (start deleted)) = Deleted
  ∧ keeps_status (_delete_environment (cls sim))
  ∧ schema.keep_environment (runbook sim) ≠ KEEP_ALWAYS
  ∧ invocations Delete_routine
      (trace (delete_environment KEEP_ALWAYS sim (start deleted)).2) = 1
  ∧ schema.keep_environment (runbook sim_keep) = KEEP_ALWAYS
  ∧ (delete_environment KEEP_ALWAYS sim_keep (start deleted)).1 = Ok tt.
Proof.
  assert (H1 : keeps_status (_delete_environment (cls sim)))
    by (intros e; reflexivity).
  assert (H2 : schema.keep_environment (runbook sim) ≠ KEEP_ALWAYS)
    by discriminate.
  split; [reflexivity|]. split; [exact H1|]. split; [exact H2|].
  destruct (C6_second_delete KEEP_ALWAYS sim (start deleted) eq_refl H1)
    as (_ & _ & Hagain).
  split; [exact (proj2 (Hagain H2))|]. split; [reflexivity|].
  destruct (C6_second_delete KEEP_ALWAYS sim_keep (start deleted) eq_refl H1)
    as (_ & Hkept & _).
  exact (proj1 (Hkept eq_refl)).
Defined.

Lemma C7_keep_always_skips_teardown_witness :
  schema.keep_environment (runbook sim_keep) = KEEP_ALWAYS
  ∧ (delete_environment KEEP_ALWAYS sim_keep (start (deployed_by sim_keep))).1
    = Ok tt
  ∧ status (env (delete_environment KEEP_ALWAYS sim_keep
                   (start (deployed_by sim_keep))).2) = Deleted
  ∧ invocations Delete_routine
      (trace (delete_environment KEEP_ALWAYS sim_keep
                (start (deployed_by sim_keep))).2) = 0.
Proof.
  split; [reflexivity|].
  destruct (C7_keep_always_skips_teardown KEEP_ALWAYS sim_keep
              (start (deployed_by sim_keep)) eq_refl) as (Hr & Hs & Hi & _).
  split; [exact Hr|]. split; [exact Hs|]. exact (Hi Delete_routine).
Defined.

Lemma C8_information_filter_and_isolation_witness :
  platform (env (start (deployed_by bad))) = Some (ref_of bad)
  ∧ ref_type_name (ref_of bad) ≠ type_name (cls sim)
  ∧ get_environment_information sim (start (deployed_by bad))
    = (Ok ∅, start (deployed_by bad))
  ∧ ref_type_name (ref_of bad) = type_name (cls bad)
  ∧ (_get_environment_information (cls bad) (env (start (deployed_by bad)))).1
    = Raise (OtherException "no metadata")
  ∧ (get_environment_information bad (start (deployed_by bad))).1
    = Ok {[ "platform" := "broken" ]}.
Proof.
  assert (Hne : ref_type_name (ref_of bad) ≠ type_name (cls sim))
    by discriminate.
  split; [reflexivity|]. split; [exact Hne|]. split.
  - apply (proj1 (C8_information_filter_and_isolation sim
                    (start (deployed_by bad)) (ref_of bad) eq_refl) Hne).
  - split; [reflexivity|]. split; [reflexivity|].
    destruct (proj2 (C8_information_filter_and_isolation bad
                       (start (deployed_by bad)) (ref_of bad) eq_refl) eq_refl)
      as (_ & Hcaught & _).
    exact (proj1 (Hcaught (OtherException "no metadata") eq_refl)).
Defined.

Lemma C9_credentials_fill_if_absent_witness :
  keeps_credentials (_prepare_environment (cls sim))
  ∧ nodes (env (start fresh)) !! 0 = Some bare
  ∧ is_remote bare = true
  ∧ lacks_credentials bare
  ∧ (∃ node', nodes (env (prepare_environment sim (start fresh)).2) !! 0
              = Some node'
              ∧ credentials node' = default_credentials (runbook sim))
  ∧ nodes (env (start fresh)) !! 1 = Some explicit
  ∧ explicit_credentials explicit
  ∧ (∃ node', nodes (env (prepare_environment sim (start fresh)).2) !! 1
              = Some node'
              ∧ credentials node' = credentials explicit).
Proof.
  assert (H1 : keeps_credentials (_prepare_environment (cls sim)))
    by (intros e; reflexivity).
  assert (H2 : explicit_credentials explicit)
    by (repeat split; eexists; reflexivity).
  split; [exact H1|]. split; [reflexivity|]. split; [reflexivity|].
  split; [reflexivity|]. split.
  { destruct (C9_credentials_fill_if_absent sim (start fresh) 0 bare H1 eq_refl)
      as (node' & Hn & Hlack & _).
    exists node'. split; [exact Hn | exact (Hlack eq_refl eq_refl)]. }
  split; [reflexivity|]. split; [exact H2|].
  destruct (C9_credentials_fill_if_absent sim (start fresh) 1 explicit H1 eq_refl)
    as (node' & Hn & _ & Hexp & _).
  exists node'. split; [exact Hn | exact (Hexp H2)].
Defined.

Lemma C10_information_needs_owner_witness :
  platform (env (start fresh)) = None
  ∧ get_environment_information sim (start fresh)
    = (Raise AssertionError, start fresh).
Proof.
  split; [reflexivity|].
  apply (proj1 (C10_information_needs_owner sim (start fresh))). reflexivity.
Defined.


(** ** Further properties of the calls *)

Import MoreSamples.

(** When the status is assigned — whatever the platform does:
    prepare_environment and delete_environment assign the status exactly when
    they return; deploy_environment assigns Deployed exactly when its deploy
    routine returns, before it builds the feature sets, so a deploy that
    raises while building them has already assigned Deployed.  The assignment
    is made once, with the call's own value, and a call that returns leaves
    the environment with that value. *)
Theorem status_assigned_once_by_its_call
    (K : string) (self : Platform) (c : call) (w : World) :
  let out := perform K self c w in
  assigned (trace out.2)
  = assigned (trace w)
    ++ (if advances K self c w out.1 then [written c] else [])
  ∧ (is_ok out.1 = true →
       advances K self c w out.1 = true ∧ status (env out.2) = written c).
Proof.
  cbv zeta. destruct c; unfold perform, advances.
  - unfold mbind, ME_bind, bind, mret, ME_ret, ret.
    rewrite prepare_environment_eq. cbv zeta.
    destruct (_prepare_environment (cls self) _) as [[[|]|x] e2];
      cbn [fst snd env trace is_ok status with_status written];
      rewrite ?assigned_app; cbn [assigned]; rewrite ?app_nil_r;
      (split; [reflexivity | first [split; reflexivity | discriminate]]).
  - rewrite deploy_environment_eq. cbv zeta.
    destruct (_deploy_environment (cls self) _) as [[[]|x] e2];
      [destruct (supported_features (cls self)) as [types|y];
       [|destruct (nodes e2)]|];
      cbn [fst snd env trace is_ok status with_status with_nodes written];
      rewrite ?assigned_app, ?assigned_asked; cbn [assigned];
      rewrite ?app_nil_r;
      (split; [reflexivity | first [split; reflexivity | discriminate]]).
  - destruct (decide (schema.keep_environment (runbook self) = K)) as [HK|HK].
    + rewrite delete_environment_keep by exact HK.
      cbn [fst snd env trace is_ok status with_status written].
      rewrite ?assigned_app; cbn [assigned]; rewrite ?app_nil_r.
      split; [reflexivity | split; reflexivity].
    + rewrite delete_environment_eq by exact HK. cbv zeta.
      destruct (_delete_environment (cls self) _) as [[[]|x] e2];
        cbn [fst snd env trace is_ok status with_status written];
        rewrite ?assigned_app; cbn [assigned]; rewrite ?app_nil_r;
        (split; [reflexivity | first [split; reflexivity | discriminate]]).
Qed.

Lemma status_assigned_once_by_its_call_witness :
  is_ok (perform KEEP_ALWAYS sim Deploy (start fresh)).1 = true
  ∧ status (env (perform KEEP_ALWAYS sim Deploy (start fresh)).2) = Deployed
  ∧ is_ok (perform KEEP_ALWAYS plain Deploy (start fresh)).1 = false
  ∧ assigned (trace (perform KEEP_ALWAYS plain Deploy (start fresh)).2)
    = [Deployed].
Proof.
  split; [reflexivity|]. split.
  - apply (proj2 (status_assigned_once_by_its_call
                    KEEP_ALWAYS sim Deploy (start fresh))).
    reflexivity.
  - split; [reflexivity|].
    apply (proj1 (status_assigned_once_by_its_call
                    KEEP_ALWAYS plain Deploy (start fresh))).
Defined.

Lemma invocations_one (r r' : routine) (e : Environment) :
  invocations r [Invoked r' e] = if decide (r = r') then 1 else 0.
Proof. destruct r, r'; reflexivity. Qed.

(** Which platform methods a call reaches — prepare_environment invokes
    [_prepare_environment] once, deploy_environment invokes
    [_deploy_environment] once, delete_environment invokes
    [_delete_environment] once unless the runbook keeps the environment, in
    which case it invokes nothing; this holds whether the routine returns or
    raises.  No call invokes another call's routine or the information
    routine.  The only other platform method reached is [supported_features],
    by deploy_environment alone: once for each feature set it starts to
    construct after its deploy routine has returned. *)
Theorem platform_methods_reached
    (K : string) (self : Platform) (c : call) (w : World) (r : routine) :
  invocations r (trace (perform K self c w).2)
  = invocations r (trace w)
    + (if decide (r = routine_of c)
       then (if reaches_routine K self c then 1 else 0)
       else if decide (r = Supported_features_routine)
            then feature_queries self c w
            else 0).
Proof.
  destruct c; unfold perform, reaches_routine, routine_of, feature_queries.
  - unfold mbind, ME_bind, bind, mret, ME_ret, ret.
    rewrite prepare_environment_eq. cbv zeta.
    destruct (_prepare_environment (cls self) _) as [[[|]|x] e2];
      cbn [fst snd trace]; rewrite ?invocations_app, ?invocations_one;
      cbn [invocations List.filter is_invocation length];
      repeat case_decide; subst; try discriminate; lia.
  - rewrite deploy_environment_eq. cbv zeta. unfold constructions.
    destruct (_deploy_environment (cls self) _) as [[[]|x] e2];
      cbn [fst snd is_ok].
    + destruct (supported_features (cls self)) as [types|y];
        [|destruct (nodes e2) as [|node rest]];
        cbn [snd trace];
        change [Asked_features] with (repeat Asked_features 1);
        rewrite ?invocations_app, ?invocations_one, ?invocations_asked;
        cbn [invocations List.filter is_invocation length];
        repeat case_decide; subst; try discriminate; lia.
    + cbn [snd trace]. rewrite ?invocations_app, ?invocations_one.
      cbn [invocations List.filter is_invocation length].
      repeat case_decide; subst; try discriminate; lia.
  - destruct (decide (schema.keep_environment (runbook self) = K)) as [HK|HK].
    + rewrite delete_environment_keep by exact HK.
      rewrite HK, String.eqb_refl.
      cbn [fst snd trace negb]. rewrite ?invocations_app.
      cbn [invocations List.filter is_invocation length].
      repeat case_decide; lia.
    + rewrite delete_environment_eq by exact HK. cbv zeta.
      apply String.eqb_neq in HK. rewrite HK.
      destruct (_delete_environment (cls self) _) as [[[]|x] e2];
        cbn [fst snd trace negb]; rewrite ?invocations_app, ?invocations_one;
        cbn [invocations List.filter is_invocation length];
        repeat case_decide; subst; try discriminate; lia.
Qed.

(** An exception of the negotiation routine is not a capability error — when
    [_prepare_environment] raises (a WaitMoreResourceError, say),
    prepare_environment raises that same exception, assigns no status and
    leaves the environment as the routine left it. *)
Theorem prepare_routine_exception_propagates
    (self : Platform) (w : World) (x : exn) :
  (_prepare_environment (cls self) (with_connection_info self (env w))).1
  = Raise x →
  let out := prepare_environment self w in
  out.1 = Raise x
  ∧ assigned (trace out.2) = assigned (trace w)
  ∧ env out.2
    = (_prepare_environment (cls self) (with_connection_info self (env w))).2.
Proof.
  intros Hraise. cbv zeta. rewrite prepare_environment_eq. cbv zeta.
  destruct (_prepare_environment (cls self) _) as [[[|]|y] e2];
    cbn [fst snd env trace] in *; try discriminate.
  rewrite assigned_app. cbn [assigned]. rewrite app_nil_r.
  split; [congruence|]. split; reflexivity.
Qed.

Lemma prepare_routine_exception_propagates_witness :
  (_prepare_environment (cls busy) (with_connection_info busy (env (start fresh)))).1
  = Raise WaitMoreResourceError
  ∧ (prepare_environment busy (start fresh)).1 = Raise WaitMoreResourceError.
Proof.
  split; [reflexivity|].
  apply (prepare_routine_exception_propagates busy (start fresh)
           WaitMoreResourceError eq_refl).
Defined.

(** A deploy leaves the environment owned, whatever its outcome — for a
    deploy routine that leaves [environment.platform] alone: after
    deploy_environment, returned or raised, the environment's platform is the
    deploying one, so get_environment_information on that platform returns
    normally, and a contributor of another type name contributes nothing. *)
Theorem deploy_binds_owner_whatever_outcome (self : Platform) (w : World) :
  keeps_platform (_deploy_environment (cls self)) →
  let w1 := (deploy_environment self w).2 in
  platform (env w1) = Some (ref_of self)
  ∧ is_ok (get_environment_information self w1).1 = true
  ∧ (∀ other, type_name (cls other) ≠ type_name (cls self) →
       get_environment_information other w1 = (Ok ∅, w1)).
Proof.
  intros Hkeep. cbv zeta.
  assert (Hown : platform (env (deploy_environment self w).2) = Some (ref_of self)).
  { rewrite deploy_environment_eq. cbv zeta.
    specialize (Hkeep (bound_to self (env w))).
    destruct (_deploy_environment (cls self) _) as [[[]|x] e2];
      [destruct (supported_features (cls self)); [|destruct (nodes e2)]|];
      cbn [fst snd env platform with_nodes with_status] in *;
      rewrite Hkeep; reflexivity. }
  split; [exact Hown|]. split.
  - rewrite (get_environment_information_own self _ _ Hown eq_refl). cbv zeta.
    destruct (_get_environment_information (cls self) _) as [[extra|x] e2];
      reflexivity.
  - intros other Hne.
    apply (get_environment_information_other other _ _ Hown).
    cbn [ref_of ref_type_name]. congruence.
Qed.

Lemma deploy_binds_owner_whatever_outcome_witness :
  keeps_platform (_deploy_environment (cls bad))
  ∧ is_ok (deploy_environment bad (start prepared)).1 = false
  ∧ platform (env (deploy_environment bad (start prepared)).2)
    = Some (ref_of bad)
  ∧ type_name (cls sim) ≠ type_name (cls bad)
  ∧ get_environment_information sim (deploy_environment bad (start prepared)).2
    = (Ok ∅, (deploy_environment bad (start prepared)).2).
Proof.
  assert (H1 : keeps_platform (_deploy_environment (cls bad)))
    by (intros e; reflexivity).
  assert (H2 : type_name (cls sim) ≠ type_name (cls bad)) by discriminate.
  destruct (deploy_binds_owner_whatever_outcome bad (start prepared) H1)
    as (Hown & _ & Hother).
  split; [exact H1|]. split; [reflexivity|]. split; [exact Hown|].
  split; [exact H2|]. exact (Hother sim H2).
Defined.

(** Preparing does not give the environment an owner — for a negotiation
    routine that leaves [environment.platform] alone: on an environment with
    no owning platform, after prepare_environment (returned or raised) the
    owner is still unset, and get_environment_information of any platform
    raises AssertionError without touching the store. *)
Theorem prepare_leaves_owner_unset
    (self other : Platform) (w : World) :
  keeps_platform (_prepare_environment (cls self)) →
  platform (env w) = None →
  let w1 := (prepare_environment self w).2 in
  platform (env w1) = None
  ∧ get_environment_information other w1 = (Raise AssertionError, w1).
Proof.
  intros Hkeep Hnone. cbv zeta.
  assert (Hown : platform (env (prepare_environment self w).2) = None).
  { rewrite prepare_environment_eq. cbv zeta.
    specialize (Hkeep (with_connection_info self (env w))).
    destruct (_prepare_environment (cls self) _) as [[[|]|x] e2];
      cbn [fst snd env platform with_status with_connection_info with_nodes] in *;
      rewrite Hkeep; exact Hnone. }
  split; [exact Hown|].
  apply get_environment_information_unowned. exact Hown.
Qed.

Lemma prepare_leaves_owner_unset_witness :
  keeps_platform (_prepare_environment (cls sim))
  ∧ platform (env (start fresh)) = None
  ∧ is_ok (prepare_environment sim (start fresh)).1 = true
  ∧ (get_environment_information sim (prepare_environment sim (start fresh)).2).1
    = Raise AssertionError.
Proof.
  assert (H1 : keeps_platform (_prepare_environment (cls sim)))
    by (intros e; reflexivity).
  split; [exact H1|]. split; [reflexivity|]. split; [reflexivity|].
  destruct (prepare_leaves_owner_unset sim sim (start fresh) H1 eq_refl)
    as (_ & Hraise).
  rewrite Hraise. reflexivity.
Defined.

(** ** A whole run *)

Lemma perform_returns (K : string) (self : Platform) (types : list string)
    (c : call) (w : World) :
  supported_features (cls self) = Ok types →
  (∀ e, (_prepare_environment (cls self) e).1 = Ok true) →
  (∀ e, (_deploy_environment (cls self) e).1 = Ok tt) →
  (∀ e, (_delete_environment (cls self) e).1 = Ok tt) →
  ∃ w', perform K self c w = (Ok tt, w')
        ∧ status (env w') = written c
        ∧ assigned (trace w') = assigned (trace w) ++ [written c]
        ∧ ∀ r, r ≠ Supported_features_routine →
               invocations r (trace w')
               = invocations r (trace w)
                 + (if decide (r = routine_of c)
                    then (if reaches_routine K self c then 1 else 0)
                    else 0).
Proof.
  intros Hsup Hp Hd Hx. destruct c; unfold perform, reaches_routine, routine_of.
  - unfold mbind, ME_bind, bind, mret, ME_ret, ret.
    rewrite prepare_environment_eq. cbv zeta.
    specialize (Hp (with_connection_info self (env w))).
    destruct (_prepare_environment (cls self) _) as [[[|]|x] e2];
      cbn [fst] in Hp; try discriminate.
    eexists. split; [reflexivity|]. cbn [env trace status with_status written].
    split; [reflexivity|]. split.
    + rewrite !assigned_app. cbn [assigned]. rewrite app_nil_r. reflexivity.
    + intros r Hr. rewrite !invocations_app, invocations_one.
      cbn [invocations List.filter is_invocation length].
      destruct (decide (r = Prepare_routine)); lia.
  - rewrite deploy_environment_eq. cbv zeta.
    specialize (Hd (bound_to self (env w))).
    destruct (_deploy_environment (cls self) _) as [[[]|x] e2];
      cbn [fst] in Hd; try discriminate.
    rewrite Hsup.
    eexists. split; [reflexivity|].
    cbn [env trace status with_status with_nodes written].
    split; [reflexivity|]. split.
    + rewrite !assigned_app, assigned_asked. cbn [assigned].
      rewrite !app_nil_r. reflexivity.
    + intros r Hr. rewrite !invocations_app, invocations_one, invocations_asked.
      rewrite (decide_False (P := r = Supported_features_routine)) by exact Hr.
      cbn [invocations List.filter is_invocation length].
      destruct (decide (r = Deploy_routine)); lia.
  - destruct (decide (schema.keep_environment (runbook self) = K)) as [HK|HK].
    + rewrite delete_environment_keep by exact HK.
      rewrite HK, String.eqb_refl.
      eexists. split; [reflexivity|]. cbn [env trace status with_status written negb].
      split; [reflexivity|]. split.
      * rewrite !assigned_app. cbn [assigned]. rewrite app_nil_r. reflexivity.
      * intros r Hr. rewrite !invocations_app.
        cbn [invocations List.filter is_invocation length].
        destruct (decide (r = Delete_routine)); lia.
    + rewrite delete_environment_eq by exact HK. cbv zeta.
      apply String.eqb_neq in HK. rewrite HK.
      specialize (Hx (close (env w))).
      destruct (_delete_environment (cls self) _) as [[[]|x] e2];
        cbn [fst] in Hx; try discriminate.
      eexists. split; [reflexivity|].
      cbn [env trace status with_status written negb].
      split; [reflexivity|]. split.
      * rewrite !assigned_app. cbn [assigned]. rewrite !app_nil_r. reflexivity.
      * intros r Hr. rewrite !invocations_app, invocations_one.
        cbn [invocations List.filter is_invocation length].
        destruct (decide (r = Delete_routine)); lia.
Qed.

(** A full run on a platform that can always deliver — when the platform
    names its feature classes, negotiation always reports feasible and the
    deploy and delete routines always return, then prepare, deploy and delete
    in sequence all return; the statuses written are Prepared, Deployed,
    Deleted in that order and the environment ends Deleted; negotiation and
    deploy each ran once, and teardown ran once unless the runbook keeps the
    environment, in which case it never ran. *)
Theorem full_run_on_a_willing_platform
    (K : string) (self : Platform) (types : list string) (e : Environment) :
  supported_features (cls self) = Ok types →
  (∀ e', (_prepare_environment (cls self) e').1 = Ok true) →
  (∀ e', (_deploy_environment (cls self) e').1 = Ok tt) →
  (∀ e', (_delete_environment (cls self) e').1 = Ok tt) →
  let out := drive K self [Prepare; Deploy; Delete] (start e) in
  out.1 = Ok tt
  ∧ observed K self [Prepare; Deploy; Delete] e
    = status e :: [Prepared; Deployed; Deleted]
  ∧ status (env out.2) = Deleted
  ∧ invocations Prepare_routine (trace out.2) = 1
  ∧ invocations Deploy_routine (trace out.2) = 1
  ∧ invocations Delete_routine (trace out.2)
    = (if String.eqb (schema.keep_environment (runbook self)) K then 0 else 1).
Proof.
  intros Hsup Hp Hd Hx. cbv zeta. unfold observed.
  destruct (perform_returns K self types Prepare (start e) Hsup Hp Hd Hx)
    as (w1 & E1 & S1 & A1 & I1).
  destruct (perform_returns K self types Deploy w1 Hsup Hp Hd Hx)
    as (w2 & E2 & S2 & A2 & I2).
  destruct (perform_returns K self types Delete w2 Hsup Hp Hd Hx)
    as (w3 & E3 & S3 & A3 & I3).
  rewrite drive_cons, E1, drive_cons, E2, drive_cons, E3.
  cbn [drive mret ME_ret ret fst snd].
  split; [reflexivity|]. split.
  { rewrite A3, A2, A1. reflexivity. }
  split; [exact S3|].
  assert (NP : Prepare_routine ≠ Supported_features_routine) by discriminate.
  assert (ND : Deploy_routine ≠ Supported_features_routine) by discriminate.
  assert (NX : Delete_routine ≠ Supported_features_routine) by discriminate.
  pose proof (I1 _ NP) as P1. pose proof (I2 _ NP) as P2.
  pose proof (I3 _ NP) as P3.
  pose proof (I1 _ ND) as D1. pose proof (I2 _ ND) as D2.
  pose proof (I3 _ ND) as D3.
  pose proof (I1 _ NX) as X1. pose proof (I2 _ NX) as X2.
  pose proof (I3 _ NX) as X3.
  cbn [routine_of reaches_routine start trace invocations List.filter length]
    in P1, P2, P3, D1, D2, D3, X1, X2, X3.
  repeat case_decide; try discriminate; try congruence.
  destruct (String.eqb (schema.keep_environment (runbook self)) K);
    cbn [negb] in X3; repeat split; lia.
Qed.

Lemma full_run_on_a_willing_platform_witness :
  supported_features (cls sim) = Ok ["StartStop"; "SerialConsole"]
  ∧ (∀ e', (_prepare_environment (cls sim) e').1 = Ok true)
  ∧ (∀ e', (_deploy_environment (cls sim) e').1 = Ok tt)
  ∧ (∀ e', (_delete_environment (cls sim) e').1 = Ok tt)
  ∧ observed KEEP_ALWAYS sim [Prepare; Deploy; Delete] fresh = lifecycle
  ∧ invocations Delete_routine
      (trace (drive KEEP_ALWAYS sim [Prepare; Deploy; Delete] (start fresh)).2)
    = 1.
Proof.
  assert (H1 : ∀ e', (_prepare_environment (cls sim) e').1 = Ok true)
    by (intros e'; reflexivity).
  assert (H2 : ∀ e', (_deploy_environment (cls sim) e').1 = Ok tt)
    by (intros e'; reflexivity).
  assert (H3 : ∀ e', (_delete_environment (cls sim) e').1 = Ok tt)
    by (intros e'; reflexivity).
  split; [reflexivity|].
  split; [exact H1|]. split; [exact H2|]. split; [exact H3|].
  destruct (full_run_on_a_willing_platform KEEP_ALWAYS sim _ fresh
              eq_refl H1 H2 H3)
    as (_ & Hobs & _ & _ & _ & Hdel).
  split; [exact Hobs | exact Hdel].
Defined.

(** ** What the information hook returns and touches *)

(** The routine's entries win — when the owner matches and
    [_get_environment_information] returns a mapping, the result holds every
    entry of that mapping unchanged, and besides them only the key "platform",
    bound to the platform's type name unless the routine supplied its own
    "platform" entry. *)
Theorem information_update_lookup
    (self : Platform) (w : World) (owner : PlatformRef)
    (extra : gmap string string) (k : string) :
  platform (env w) = Some owner →
  ref_type_name owner = type_name (cls self) →
  (_get_environment_information (cls self) (env w)).1 = Ok extra →
  ∃ information : gmap string string,
    (get_environment_information self w).1 = Ok information
    ∧ information !! k
      = match extra !! k with
        | Some v => Some v
        | None => if decide (k = "platform")
                  then Some (type_name (cls self)) else None
        end.
Proof.
  intros Hown Heq Hextra.
  rewrite (get_environment_information_own self w owner Hown Heq). cbv zeta.
  destruct (_get_environment_information (cls self) _) as [[extra'|x] e2];
    cbn [fst] in Hextra; [|discriminate].
  injection Hextra as ->. eexists. split; [reflexivity|].
  rewrite lookup_union, lookup_singleton.
  destruct (decide ("platform" = k)) as [Hk|Hk].
  - rewrite (decide_True (P := k = "platform")) by congruence.
    destruct (extra !! k); reflexivity.
  - rewrite (decide_False (P := k = "platform")) by congruence.
    destruct (extra !! k); reflexivity.
Qed.

Lemma information_update_lookup_witness :
  platform (env (start (deployed_by sim))) = Some (ref_of sim)
  ∧ ref_type_name (ref_of sim) = type_name (cls sim)
  ∧ (_get_environment_information (cls sim) (env (start (deployed_by sim)))).1
    = Ok {[ "location" := "lab" ]}
  ∧ ∃ information : gmap string string,
      (get_environment_information sim (start (deployed_by sim))).1
      = Ok information
      ∧ information !! "location" = Some "lab".
Proof.
  split; [reflexivity|]. split; [reflexivity|]. split; [reflexivity|].
  destruct (information_update_lookup sim (start (deployed_by sim)) (ref_of sim)
              {[ "location" := "lab" ]} "location" eq_refl eq_refl eq_refl)
    as (information & Hres & Hlook).
  exists information. split; [exact Hres|].
  rewrite Hlook, lookup_singleton_eq. reflexivity.
Defined.

(** The information hook only gathers for its own environments —
    get_environment_information invokes [_get_environment_information] once
    when the environment's owner has the contributor's type name, and not at
    all when the owner differs or is unset; it invokes no other routine, never
    assigns the status, and when it does not gather it leaves the store as it
    found it. *)
Theorem information_routine_accounting
    (self : Platform) (w : World) (r : routine) :
  let out := get_environment_information self w in
  let gathers :=
    match platform (env w) with
    | Some owner => String.eqb (ref_type_name owner) (type_name (cls self))
    | None => false
    end in
  invocations r (trace out.2)
  = invocations r (trace w)
    + (if decide (r = Information_routine)
       then (if gathers then 1 else 0) else 0)
  ∧ assigned (trace out.2) = assigned (trace w)
  ∧ (gathers = false → out.2 = w).
Proof.
  cbv zeta. destruct (platform (env w)) as [owner|] eqn:Hown.
  - destruct (String.eqb_spec (ref_type_name owner) (type_name (cls self)))
      as [Heq|Hne].
    + rewrite (get_environment_information_own self w owner Hown Heq).
      cbv zeta.
      destruct (_get_environment_information (cls self) _) as [[extra|x] e2];
        cbn [fst snd trace];
        rewrite ?invocations_app, ?assigned_app, ?invocations_one;
        cbn [assigned invocations List.filter is_invocation length];
        rewrite ?app_nil_r;
        (split; [case_decide; lia | split; [reflexivity | discriminate]]).
    + rewrite (get_environment_information_other self w owner Hown Hne).
      cbn [snd]. split; [case_decide; lia | split; reflexivity].
  - rewrite (get_environment_information_unowned self w Hown).
    cbn [snd]. split; [case_decide; lia | split; reflexivity].
Qed.

Lemma information_routine_accounting_witness :
  String.eqb (ref_type_name (ref_of bad)) (type_name (cls sim)) = false
  ∧ (get_environment_information sim (start (deployed_by bad))).2
    = start (deployed_by bad).
Proof.
  split; [reflexivity|].
  apply (proj2 (proj2 (information_routine_accounting
                         sim (start (deployed_by bad)) Information_routine))).
  reflexivity.
Defined.

(** ** The base class *)

(** A platform class that overrides nothing cannot prepare, deploy or tear
    down — with the base-class bodies, prepare_environment and
    deploy_environment raise NotImplementedError and assign no status;
    delete_environment raises it too, except when the runbook keeps the
    environment: then the unimplemented routine is never reached, the call
    returns and the status is Deleted.  The information hook still answers,
    with just the platform name. *)
Theorem base_class_is_abstract
    (tn K : string) (rb : schema.Platform) (w : World) :
  let self := {| cls := Platform_base tn; runbook := rb |} in
  (prepare_environment self w).1 = Raise NotImplementedError
  ∧ assigned (trace (prepare_environment self w).2) = assigned (trace w)
  ∧ (deploy_environment self w).1 = Raise NotImplementedError
  ∧ assigned (trace (deploy_environment self w).2) = assigned (trace w)
  ∧ (delete_environment K self w).1
    = (if String.eqb (schema.keep_environment rb) K
       then Ok tt else Raise NotImplementedError)
  ∧ assigned (trace (delete_environment K self w).2)
    = assigned (trace w)
      ++ (if String.eqb (schema.keep_environment rb) K then [Deleted] else [])
  ∧ (∀ owner, platform (env w) = Some owner → ref_type_name owner = tn →
       (get_environment_information self w).1 = Ok {[ "platform" := tn ]}).
Proof.
  cbv zeta. set (self := {| cls := Platform_base tn; runbook := rb |}).
  assert (Hinfo : ∀ owner, platform (env w) = Some owner →
            ref_type_name owner = tn →
            (get_environment_information self w).1 = Ok {[ "platform" := tn ]}).
  { intros owner Hown Heq.
    rewrite (get_environment_information_own self w owner Hown Heq). cbn.
    rewrite (left_id_L ∅ (∪)). reflexivity. }
  split; [rewrite prepare_environment_eq; reflexivity|].
  split.
  { rewrite prepare_environment_eq.
    cbn [self Platform_base cls _prepare_environment raise snd trace].
    rewrite assigned_app. cbn [assigned]. apply app_nil_r. }
  split; [rewrite deploy_environment_eq; reflexivity|].
  split.
  { rewrite deploy_environment_eq.
    cbn [self Platform_base cls _deploy_environment raise snd trace].
    rewrite !assigned_app. cbn [assigned]. rewrite !app_nil_r. reflexivity. }
  destruct (String.eqb_spec (schema.keep_environment rb) K) as [HK|HK].
  - rewrite (delete_environment_keep K self w HK).
    cbn [fst snd trace]. rewrite !assigned_app. cbn [assigned].
    rewrite app_nil_r.
    split; [reflexivity|]. split; [reflexivity | exact Hinfo].
  - rewrite (delete_environment_eq K self w HK).
    cbn [self Platform_base cls _delete_environment raise fst snd trace].
    rewrite !assigned_app. cbn [assigned]. rewrite !app_nil_r.
    split; [reflexivity|]. split; [reflexivity | exact Hinfo].
Qed.

Lemma base_class_is_abstract_witness :
  platform (env (start (deployed_by sim))) = Some (ref_of sim)
  ∧ ref_type_name (ref_of sim) = "simulated"
  ∧ (get_environment_information
       {| cls := Platform_base "simulated"; runbook := rb "simulated" "no" |}
       (start (deployed_by sim))).1
    = Ok {[ "platform" := "simulated" ]}.
Proof.
  split; [reflexivity|]. split; [reflexivity|].
  destruct (base_class_is_abstract "simulated" KEEP_ALWAYS
              (rb "simulated" "no") (start (deployed_by sim)))
    as (_ & _ & _ & _ & _ & _ & Hinfo).
  exact (Hinfo (ref_of sim) eq_refl eq_refl).
Defined.

(** ** Loading from a runbook builder *)

(** load_platform_from_builder yields a platform only from exactly one
    platform record — whatever the builder's resolver and the schema loader
    are: an exception of either propagates unchanged; a parsed list whose
    length is not 1 raises "There must be 1 and only 1 platform"; and when the
    call returns, the builder's platform section resolved and parsed to a
    single record, which is the one load_platform was given. *)
Theorem load_platform_from_builder_outcomes
    (RunbookData : Type) (PLATFORM : string)
    (partial_resolve : string → ME Loader RunbookData)
    (load_by_type_many : RunbookData → ME Loader (list schema.Platform))
    (registered : list PlatformClass) (st : Loader) :
  let out := load_platform_from_builder RunbookData PLATFORM
               partial_resolve load_by_type_many registered st in
  (∀ x st1, partial_resolve PLATFORM st = (Raise x, st1) → out = (Raise x, st1))
  ∧ (∀ data st1 x st2,
       partial_resolve PLATFORM st = (Ok data, st1) →
       load_by_type_many data st1 = (Raise x, st2) →
       out = (Raise x, st2))
  ∧ (∀ data st1 rbs st2,
       partial_resolve PLATFORM st = (Ok data, st1) →
       load_by_type_many data st1 = (Ok rbs, st2) →
       length rbs ≠ 1 →
       out = (Raise (LisaException "There must be 1 and only 1 platform"), st2))
  ∧ (is_ok out.1 = true →
       ∃ data st1 rb st2,
         partial_resolve PLATFORM st = (Ok data, st1)
         ∧ load_by_type_many data st1 = (Ok [rb], st2)
         ∧ out = load_platform registered [rb] st2).
Proof.
  cbv zeta. unfold load_platform_from_builder.
  unfold mbind, ME_bind, bind, mret, ME_ret, ret.
  destruct (partial_resolve PLATFORM st) as [[data|x] st1] eqn:Hres.
  - destruct (load_by_type_many data st1) as [[rbs|x] st2] eqn:Hparse.
    + split; [intros y st' H; discriminate|].
      split; [intros d s y s' H1 H2; injection H1 as <- <-;
              rewrite Hparse in H2; discriminate|].
      split.
      * intros d s l s' H1 H2 Hlen. injection H1 as <- <-.
        rewrite Hparse in H2. injection H2 as <- <-.
        unfold load_platform.
        destruct (Nat.eqb_spec (length rbs) 1) as [E|E]; [contradiction|].
        reflexivity.
      * intros Hok.
        destruct rbs as [|rb [|rb' rest]].
        -- cbn in Hok. discriminate.
        -- exists data, st1, rb, st2.
           split; [reflexivity|]. split; [exact Hparse|].
           destruct (load_platform registered [rb] st2) as [[p|y] st3];
             reflexivity.
        -- cbn in Hok. discriminate.
    + split; [intros y st' H; discriminate|].
      split; [intros d s y s' H1 H2; injection H1 as <- <-;
              rewrite Hparse in H2; injection H2 as <- <-; reflexivity|].
      split; [intros d s l s' H1 H2; injection H1 as <- <-;
              rewrite Hparse in H2; discriminate|].
      cbn. discriminate.
  - split; [intros y st' H; injection H as <- <-; reflexivity|].
    split; [intros d s y s' H; discriminate|].
    split; [intros d s l s' H; discriminate|].
    cbn. discriminate.
Qed.

Lemma load_platform_from_builder_outcomes_witness :
  resolve [] "platform" nothing = (Ok [], nothing)
  ∧ parse [] nothing = (Ok [], nothing)
  ∧ length ([] : list schema.Platform) ≠ 1
  ∧ load_platform_from_builder (list schema.Platform) "platform"
      (resolve []) parse [broken; simulated] nothing
    = (Raise (LisaException "There must be 1 and only 1 platform"), nothing)
  ∧ resolve [] "plat" nothing = (Raise (OtherException "KeyError"), nothing)
  ∧ load_platform_from_builder (list schema.Platform) "plat"
      (resolve []) parse [broken; simulated] nothing
    = (Raise (OtherException "KeyError"), nothing).
Proof.
  split; [reflexivity|]. split; [reflexivity|]. split; [cbn; lia|].
  split.
  - destruct (load_platform_from_builder_outcomes (list schema.Platform)
                "platform" (resolve []) parse [broken; simulated] nothing)
      as (_ & _ & Hcard & _).
    apply (Hcard [] nothing [] nothing eq_refl eq_refl). cbn. lia.
  - split; [reflexivity|].
    destruct (load_platform_from_builder_outcomes (list schema.Platform)
                "plat" (resolve []) parse [broken; simulated] nothing)
      as (Hres & _).
    apply (Hres (OtherException "KeyError") nothing eq_refl).
Defined.


(** ** Local cleanup on delete *)

(** The environment is closed in every outcome of a delete —
    delete_environment calls [environment.close()] first, so the deletion
    routine is handed the closed environment, and for a routine that leaves
    the nodes alone the nodes afterwards are those [close] left, whether the
    runbook keeps the environment, the routine returns, or it raises. *)
Theorem delete_closes_in_every_outcome
    (K : string) (self : Platform) (w : World) :
  keeps_nodes (_delete_environment (cls self)) →
  let out := delete_environment K self w in
  nodes (env out.2) = nodes (close (env w))
  ∧ List.filter (is_invocation Delete_routine) (trace out.2)
    = List.filter (is_invocation Delete_routine) (trace w)
      ++ (if String.eqb (schema.keep_environment (runbook self)) K
          then [] else [Invoked Delete_routine (close (env w))]).
Proof.
  intros Hkeep. cbv zeta.
  destruct (String.eqb_spec (schema.keep_environment (runbook self)) K)
    as [HK|HK].
  - rewrite delete_environment_keep by exact HK. cbn [snd env trace].
    split; [reflexivity|].
    rewrite !List.filter_app. cbn. rewrite !app_nil_r. reflexivity.
  - rewrite delete_environment_eq by exact HK. cbv zeta.
    specialize (Hkeep (close (env w))).
    destruct (_delete_environment (cls self) _) as [[[]|x] e2];
      cbn [fst snd env trace nodes with_status] in *;
      (split; [exact Hkeep|]);
      rewrite !List.filter_app; cbn; rewrite ?app_nil_r; reflexivity.
Qed.

Lemma delete_closes_in_every_outcome_witness :
  keeps_nodes (_delete_environment (cls bad))
  ∧ is_ok (delete_environment KEEP_ALWAYS bad (start (deployed_by bad))).1 = false
  ∧ nodes (env (delete_environment KEEP_ALWAYS bad (start (deployed_by bad))).2)
    = nodes (close (deployed_by bad)).
Proof.
  assert (H1 : keeps_nodes (_delete_environment (cls bad)))
    by (intros e; reflexivity).
  split; [exact H1|]. split; [reflexivity|].
  apply (delete_closes_in_every_outcome KEEP_ALWAYS bad
           (start (deployed_by bad)) H1).
Defined.
